(** * Triangular arbitrage bot ([arb_bot.py]): model and checked properties

    The development follows the layout of the Python source: configuration,
    the order-book store, the triangle scanner (graph, enumeration, depth
    walk), the trade executor and the main trading loop.  Python [float]
    values are IEEE-754 binary64 numbers and are modelled by Rocq's primitive
    floats; dictionaries keyed by strings are [gmap string _]; a dictionary
    that is iterated ([markets.items()]) is an association list in insertion
    order. *)

From Stdlib Require Import ZArith Bool Lia.
From Stdlib Require Import Floats.
From stdpp Require Import gmap strings list pretty functions.

Local Open Scope Z_scope.
#[local] Set Warnings "-inexact-float".

(** ** Python values used by the bot *)

(** The value found under the key ['active'] of a market dictionary: the key
    may be missing, or hold [None], or hold a boolean. *)
Inductive ActiveField : Type :=
  | ActiveMissing
  | ActiveNone
  | ActiveBool (b : bool).

(** [market.get('active', True)] followed by Python's truth test. *)
Definition active_or_true (a : ActiveField) : bool :=
  match a with
  | ActiveMissing => true
  | ActiveNone => false
  | ActiveBool b => b
  end.

(** A market dictionary as [load_markets] returns it (the fields the bot
    reads). *)
Record Market : Type := mkMarket {
  m_active : ActiveField;
  m_base : string;
  m_quote : string
}.

(** The direction strings ['buy'] and ['sell']. *)
Inductive Direction : Type := buy | sell.

#[global] Instance Direction_eq_dec : EqDecision Direction.
Proof. solve_decision. Defined.

(** An adjacency entry [(neighbour, symbol, direction)]. *)
Definition Edge : Type := (string * string * Direction)%type.

(** The triangle dictionary built by [find_triangles]. *)
Record Triangle : Type := mkTriangle {
  t_path : list string;
  t_pairs : list string;
  t_directions : list Direction;
  t_string : string
}.

(** ** Config *)

Record Config : Type := mkConfig {
  DRY_RUN : bool;
  TRADE_AMOUNT : float;
  MIN_PROFIT : float;
  SCAN_INTERVAL : float;
  MAX_SYMBOLS : Z;
  MAX_TRIANGLES : Z
}.

(** Python's slice [l[:n]] for an integer [n] of either sign. *)
Definition slice_to {A} (n : Z) (l : list A) : list A :=
  if 0 <=? n then take (Z.to_nat n) l
  else take (Z.to_nat (Z.of_nat (length l) + n)) l.

(** ** TriangleScanner: graph and enumeration *)

Module Scanner.

(** [adj[k].append(e)] on a [defaultdict(list)]. *)
Definition adj_append (k : string) (e : Edge)
    (adj : gmap string (list Edge)) : gmap string (list Edge) :=
  <[k := default [] (adj !! k) ++ [e]]> adj.

(** One iteration of the loop of [build_adjacency]. *)
Definition add_market (adj : gmap string (list Edge))
    (item : string * Market) : gmap string (list Edge) :=
  let '(symbol, market) := item in
  if negb (active_or_true (m_active market)) then adj
  else
    let base := m_base market in
    let quote := m_quote market in
    if bool_decide (quote ≠ "USDT") && bool_decide (base ≠ "USDT") then adj
    else
      adj_append quote (base, symbol, sell)
        (adj_append base (quote, symbol, buy) adj).

Definition build_adjacency (markets : list (string * Market))
    : gmap string (list Edge) :=
  fold_left add_market markets ∅.

(** [adj.get(k, [])]. *)
Definition adj_get (adj : gmap string (list Edge)) (k : string) : list Edge :=
  default [] (adj !! k).

Definition arrow : string := " → ".

Definition triangle_string (start b c : string) : string :=
  start +:+ arrow +:+ b +:+ arrow +:+ c +:+ arrow +:+ start.

(** The innermost loop: closing edges of [c] back to [start]. *)
Definition close_triangles (start b c sab sbc : string) (dab dbc : Direction)
    (es : list Edge) : list Triangle :=
  flat_map (fun '(back, sca, dca) =>
    if bool_decide (back = start)
    then [mkTriangle [start; b; c] [sab; sbc; sca] [dab; dbc; dca]
                     (triangle_string start b c)]
    else []) es.

(** The middle loop over the edges of [b]. *)
Definition second_legs (adj : gmap string (list Edge)) (start b sab : string)
    (dab : Direction) (es : list Edge) : list Triangle :=
  flat_map (fun '(c, sbc, dbc) =>
    if bool_decide (c = start) then []
    else close_triangles start b c sab sbc dab dbc (adj_get adj c)) es.

(** The outer loop over the edges [adj[start]]. *)
Definition enumerate (adj : gmap string (list Edge)) (start : string)
    (first : list Edge) : list Triangle :=
  flat_map (fun '(b, sab, dab) =>
    second_legs adj start b sab dab (adj_get adj b)) first.

Definition find_triangles (cfg : Config) (markets : list (string * Market))
    : list Triangle :=
  let adj := build_adjacency markets in
  let start := "USDT" in
  match adj !! start with
  | None => []
  | Some first => slice_to (MAX_TRIANGLES cfg) (enumerate adj start first)
  end.

End Scanner.

(** ** Python float operations *)

Module PyFloat.

(** Exceptions that the bot's arithmetic can raise. *)
Inductive PyExn : Type := ZeroDivisionError.

(** The control flow of the body of [simulate_triangle]: fall through to
    the next statement with a value, [return None], or raise. *)
Inductive Flow (A : Type) : Type :=
  | Next (a : A)
  | ReturnNone
  | Raise (e : PyExn).
Arguments Next {A} a.
Arguments ReturnNone {A}.
Arguments Raise {A} e.

#[global] Instance Flow_ret : MRet Flow := @Next.

#[global] Instance Flow_bind : MBind Flow := fun A B k c =>
  match c with
  | Next a => k a
  | ReturnNone => ReturnNone
  | Raise e => Raise e
  end.

(** [x / y] on Python floats: division by a zero of either sign raises. *)
Definition truediv (x y : float) : Flow float :=
  if (y =? 0)%float then Raise ZeroDivisionError else Next (x / y)%float.

(** [x > y] and [x >= y], which primitive floats spell with the operands
    swapped. *)
Definition gt (x y : float) : bool := (y <? x)%float.
Definition ge (x y : float) : bool := (y <=? x)%float.

(** Nearest integer to [n / d] with ties to even ([0 <= n], [0 < d]). *)
Definition div_half_even (n d : Z) : Z :=
  let q := n / d in
  match (2 * (n mod d)) ?= d with
  | Lt => q
  | Gt => q + 1
  | Eq => if Z.even q then q else q + 1
  end.

(** The builtin [round(x, ndigits)] for a float [x] and [0 <= ndigits]
    small: CPython rounds the exact binary value to [ndigits] decimals
    (ties to even) and converts that decimal back to the nearest double.
    Zeros, infinities and NaN round to themselves, and so does every
    float that is an integer. *)
Definition round (x : float) (ndigits : nat) : float :=
  match Prim2SF x with
  | S754_finite s m e =>
      if 0 <=? e then x
      else
        let scale := 10 ^ Z.of_nat ndigits in
        match div_half_even (Zpos m * scale) (2 ^ (- e)) with
        | Zpos p =>
            SF2Prim (SF64div (S754_finite s p 0)
                             (S754_finite false (Z.to_pos scale) 0))
        | _ => if s then neg_zero else zero
        end
  | _ => x
  end.

End PyFloat.

(** ** SimpleOrderBook *)

(** One price level [(price, volume)]. *)
Definition Level : Type := (float * float)%type.

(** The dictionary stored per symbol by [SimpleOrderBook.update]. *)
Record Snapshot : Type := mkSnapshot {
  bids : list Level;
  asks : list Level;
  timestamp : float
}.

Module OrderBook.

(** [self.orderbooks = {}]. *)
Definition empty : gmap string Snapshot := ∅.

(** [update(symbol, bids, asks)]; [now] is the reading of [time.time()]. *)
Definition update (now : float) (symbol : string) (b a : list Level)
    (orderbooks : gmap string Snapshot) : gmap string Snapshot :=
  <[symbol := mkSnapshot b a now]> orderbooks.

(** [get(symbol)]. *)
Definition get (symbol : string) (orderbooks : gmap string Snapshot)
    : option Snapshot :=
  orderbooks !! symbol.

End OrderBook.

(** ** TriangleScanner: simulation *)

(** The dictionary returned by [simulate_triangle]. *)
Record Opportunity : Type := mkOpportunity {
  o_triangle : string;
  o_pairs : list string;
  profit_pct : float;
  profit_usd : float;
  o_timestamp : string
}.

Module Simulator.
Import PyFloat.

(** The remainder above which a depth walk counts as unfilled. *)
Definition EPSILON : float := 0.00001%float.

(** The fee factor applied after every leg. *)
Definition FEE_FACTOR : float := 0.999%float.

(** The loop over bid levels of the ['sell'] branch; the result is
    [(received, remaining)] when the loop ends. *)
Fixpoint walk_bids (levels : list Level) (remaining received : float)
    : float * float :=
  match levels with
  | [] => (received, remaining)
  | (price, volume) :: rest =>
      if ge volume remaining
      then ((received + remaining * price)%float, 0%float)
      else walk_bids rest (remaining - volume)%float
                          (received + volume * price)%float
  end.

(** The loop over ask levels of the other branch; the result is
    [(acquired, remaining)], unless the division raises. *)
Fixpoint walk_asks (levels : list Level) (remaining acquired : float)
    : Flow (float * float) :=
  match levels with
  | [] => Next (acquired, remaining)
  | (price, volume) :: rest =>
      let cost := (price * volume)%float in
      if (cost <=? remaining)%float
      then walk_asks rest (remaining - cost)%float (acquired + volume)%float
      else
        q ← truediv remaining price;
        Next ((acquired + q)%float, 0%float)
  end.

(** The depth walk of one leg, before the unfilled check and the fee. *)
Definition walk (ob : Snapshot) (direction : Direction) (current : float)
    : Flow (float * float) :=
  match direction with
  | sell => Next (walk_bids (bids ob) current 0%float)
  | buy => walk_asks (asks ob) current 0%float
  end.

(** One iteration of the loop over [zip(pairs, directions)]. *)
Definition leg (orderbooks : gmap string Snapshot) (current : float)
    (pd : string * Direction) : Flow float :=
  match OrderBook.get pd.1 orderbooks with
  | None => ReturnNone
  | Some ob =>
      '(out, remaining) ← walk ob pd.2 current;
      if gt remaining EPSILON then ReturnNone
      else Next (out * FEE_FACTOR)%float
  end.

Fixpoint legs (orderbooks : gmap string Snapshot) (current : float)
    (l : list (string * Direction)) : Flow float :=
  match l with
  | [] => Next current
  | pd :: rest => c ← leg orderbooks current pd; legs orderbooks c rest
  end.

(** The unrounded figures [(profit, profit_pct)] computed after the loop. *)
Definition profit_of (current amount : float) : Flow (float * float) :=
  let profit := (current - amount)%float in
  q ← truediv profit amount;
  Next (profit, (q * 100)%float).

(** The statements of the [try] block down to the threshold test: the
    three legs, then [(profit, profit_pct)] as computed, before any
    rounding. *)
Definition unrounded (orderbooks : gmap string Snapshot)
    (triangle : Triangle) (amount : float) : Flow (float * float) :=
  current ← legs orderbooks amount
              (zip (t_pairs triangle) (t_directions triangle));
  profit_of current amount.

(** The body of the [try] block; [now] is the formatted wall-clock time. *)
Definition simulate_body (cfg : Config) (orderbooks : gmap string Snapshot)
    (now : string) (triangle : Triangle) (amount : float)
    : Flow Opportunity :=
  '(profit, pct) ← unrounded orderbooks triangle amount;
  if (pct <? MIN_PROFIT cfg)%float then ReturnNone
  else Next (mkOpportunity (t_string triangle) (t_pairs triangle)
                           (round pct 3) (round profit 2) now).

(** [simulate_triangle]: an exception is caught and gives [None]. *)
Definition simulate_triangle (cfg : Config)
    (orderbooks : gmap string Snapshot) (now : string)
    (triangle : Triangle) (amount : float) : option Opportunity :=
  match simulate_body cfg orderbooks now triangle amount with
  | Next o => Some o
  | ReturnNone => None
  | Raise _ => None
  end.

End Simulator.

(** ** TradeExecutor *)

(** The strings stored under ['status']. *)
Inductive Status : Type := dry_run | executed | failed.

(** The [trade_result] dictionary; the key ['error'] exists only in the
    failed case. *)
Record Trade : Type := mkTrade {
  tr_id : string;
  tr_triangle : string;
  tr_profit_pct : float;
  tr_profit_usd : float;
  tr_status : Status;
  tr_error : option string;
  tr_timestamp : string
}.

(** [self.stats]. *)
Record Stats : Type := mkStats {
  total_trades : Z;
  profitable : Z;
  total_profit : float;
  best_trade : float
}.

(** Modelled from the spec: the external order-submission capability
    [submitLeg(pairSymbol, side, amount) -> ack | error] of the exchange
    object ([ccxt], not part of the repository); [None] is an
    acknowledgement and [Some e] an error. *)
Record Exchange : Type := mkExchange {
  submitLeg : string -> Direction -> float -> option string
}.

(** What one call of [execute] reads from the clock: [int(time.time())] and
    [datetime.now().isoformat()]. *)
Record ExecClock : Type := mkExecClock {
  epoch : Z;
  isoformat : string
}.

(** What the live branch does to the outside world, in order. *)
Inductive Effect : Type :=
  | PrintLeg (number : nat) (pair : string)
  | Sleep (seconds : float).

Module Executor.

(** The fields of a [TradeExecutor] object. *)
Record t : Type := mk {
  exchange : Exchange;
  trades : list Trade;
  stats : Stats
}.

Definition MAXLEN : nat := 100.

(** [TradeExecutor(exchange)]. *)
Definition init (ex : Exchange) : t :=
  mk ex [] (mkStats 0 0 0%float 0%float).

(** [deque.appendleft] on a deque of bounded length: a full deque first
    drops its rightmost item. *)
Definition appendleft {A} (maxlen : nat) (x : A) (d : list A) : list A :=
  if (maxlen =? 0)%nat then []
  else if (length d =? maxlen)%nat then x :: removelast d
  else x :: d.

(** The loop over [enumerate(pairs)] inside the [try] block: each leg is
    printed and followed by a pause.  The result is the effects performed,
    or the text of an exception; nothing in the loop raises. *)
Definition live_legs (pairs : list string) : string + list Effect :=
  inr (concat (imap (fun i pair => [PrintLeg (S i) pair; Sleep 0.1%float])
                    pairs)).

(** The [trade_result] built by [execute], with the effects of the live
    branch. *)
Definition trade_result (cfg : Config) (clock : ExecClock)
    (opportunity : Opportunity) : Trade * list Effect :=
  let trade_id := "TR" +:+ pretty (epoch clock) in
  if DRY_RUN cfg then
    (mkTrade trade_id (o_triangle opportunity) (profit_pct opportunity)
             (profit_usd opportunity) dry_run None (isoformat clock), [])
  else
    match live_legs (o_pairs opportunity) with
    | inr effects =>
        (mkTrade trade_id (o_triangle opportunity) (profit_pct opportunity)
                 (profit_usd opportunity) executed None (isoformat clock),
         effects)
    | inl e =>
        (mkTrade trade_id (o_triangle opportunity) 0%float 0%float
                 failed (Some e) (isoformat clock), [])
    end.

(** The statistics update at the end of [execute]. *)
Definition update_stats (s : Stats) (tr : Trade) : Stats :=
  let total := total_trades s + 1 in
  if PyFloat.gt (tr_profit_usd tr) 0%float then
    mkStats total (profitable s + 1)
            (total_profit s + tr_profit_usd tr)%float
            (if PyFloat.gt (tr_profit_usd tr) (best_trade s)
             then tr_profit_usd tr else best_trade s)
  else mkStats total (profitable s) (total_profit s) (best_trade s).

(** [execute(opportunity)]: the new executor, the returned trade and the
    effects of the live branch. *)
Definition execute (cfg : Config) (clock : ExecClock) (self : t)
    (opportunity : Opportunity) : t * Trade * list Effect :=
  let '(tr, effects) := trade_result cfg clock opportunity in
  (mk (exchange self) (appendleft MAXLEN tr (trades self))
      (update_stats (stats self) tr),
   tr, effects).

End Executor.

(** ** The main trading loop *)

(** What one pass of the loop reads from its environment: for the
    simulation of the triangle at each position, the order-book dictionary
    at that moment and the formatted time; the two readings of [time.time()]
    around the cooldown test; and the clock seen by [execute]. *)
Record TickEnv : Type := mkTickEnv {
  books_at : nat -> gmap string Snapshot;
  hms_at : nat -> string;
  time_check : float;
  time_fire : float;
  exec_clock : ExecClock
}.

Module Bot.

(** The variables of [main] that live across passes. *)
Record t : Type := mk {
  scan_count : Z;
  last_opportunity_time : float;
  executor : Executor.t
}.

(** The literal of the test [time.time() - last_opportunity_time < 2]. *)
Definition COOLDOWN : float := 2%float.

Definition init (ex : Exchange) : t := mk 0 0%float (Executor.init ex).

(** One iteration of the loop over [scanner.triangles]. *)
Definition select_step (acc : option Opportunity * float)
    (result : option Opportunity) : option Opportunity * float :=
  match result with
  | Some r =>
      if PyFloat.gt (profit_pct r) acc.2 then (Some r, profit_pct r) else acc
  | None => acc
  end.

(** [(best_opportunity, best_profit)] after the loop. *)
Definition select_best (results : list (option Opportunity))
    : option Opportunity * float :=
  fold_left select_step results (None, 0%float).

(** The results of [simulate_triangle] over the triangle list. *)
Definition scan (cfg : Config) (env : TickEnv) (triangles : list Triangle)
    : list (option Opportunity) :=
  imap (fun i triangle =>
          Simulator.simulate_triangle cfg (books_at env i) (hms_at env i)
            triangle (TRADE_AMOUNT cfg))
       triangles.

(** One pass of [while True]: the new variables and the opportunity handed
    to [execute], if any.  Console output and the pause between passes are
    left out. *)
Definition tick (cfg : Config) (triangles : list Triangle) (env : TickEnv)
    (bot : t) : t * option Opportunity :=
  let count := scan_count bot + 1 in
  let '(best_opportunity, best_profit) :=
    select_best (scan cfg env triangles) in
  match best_opportunity with
  | Some opportunity =>
      if PyFloat.ge best_profit (MIN_PROFIT cfg) then
        if (time_check env - last_opportunity_time bot <? COOLDOWN)%float
        then (mk count (last_opportunity_time bot) (executor bot), None)
        else
          let '(ex, _, _) :=
            Executor.execute cfg (exec_clock env) (executor bot) opportunity in
          (mk count (time_fire env) ex, Some opportunity)
      else (mk count (last_opportunity_time bot) (executor bot), None)
  | None => (mk count (last_opportunity_time bot) (executor bot), None)
  end.

(** Successive passes, one per environment; the dispatches in order. *)
Fixpoint run (cfg : Config) (triangles : list Triangle)
    (envs : list TickEnv) (bot : t) : t * list (option Opportunity) :=
  match envs with
  | [] => (bot, [])
  | env :: rest =>
      let '(bot1, d) := tick cfg triangles env bot in
      let '(bot2, ds) := run cfg triangles rest bot1 in
      (bot2, d :: ds)
  end.

End Bot.

(** ** SimpleOrderBook under concurrent callers

    The poller thread calls [update] while the main loop calls [get], both
    on the one [orderbook] object.  Each thread is followed through the
    statements of the method it is in; a pass of the scheduler moves one
    thread by one statement. *)

Module Concurrent.

(** Where a thread stands. *)
Inductive Pc : Type :=
  | Idle
  | UpdateEnter (symbol : string) (b a : list Level)
      (* called [update], waiting at [with self.lock] *)
  | UpdateLocked (symbol : string) (b a : list Level)
      (* holds the lock, about to build the dictionary *)
  | UpdateBuilt (symbol : string) (snap : Snapshot)
      (* dictionary built, about to store it under [symbol] *)
  | UpdateStored
      (* stored, about to leave the [with] block *)
  | GetEnter (symbol : string)
      (* called [get], waiting at [with self.lock] *)
  | GetLocked (symbol : string)
      (* holds the lock, about to read [self.orderbooks.get(symbol)] *)
  | GetRead (symbol : string) (value : option Snapshot).
      (* value read, about to leave the [with] block and return it *)

(** Whether a thread at this point is inside a [with self.lock] block. *)
Definition in_lock (pc : Pc) : bool :=
  match pc with
  | UpdateLocked _ _ _ | UpdateBuilt _ _ | UpdateStored
  | GetLocked _ | GetRead _ _ => true
  | Idle | UpdateEnter _ _ _ | GetEnter _ => false
  end.

(** The shared object, the threads, and two histories kept for the
    statements below: the dictionaries built by calls of [update] (with
    the symbol of the call) and the values returned by calls of [get]. *)
Record World : Type := mkWorld {
  orderbooks : gmap string Snapshot;
  lock : option nat;
  pc_of : nat -> Pc;
  built : list (string * Snapshot);
  returned : list (nat * string * option Snapshot)
}.

Definition initial : World := mkWorld ∅ None (fun _ => Idle) [] [].

Definition at_pc (w : World) (tid : nat) (pc : Pc) : World :=
  mkWorld (orderbooks w) (lock w) (<[tid := pc]> (pc_of w))
          (built w) (returned w).

(** One statement of one thread. *)
Inductive step : World -> World -> Prop :=
  | call_update w tid symbol b a :
      pc_of w tid = Idle ->
      step w (at_pc w tid (UpdateEnter symbol b a))
  | acquire_update w tid symbol b a :
      pc_of w tid = UpdateEnter symbol b a ->
      lock w = None ->
      step w (mkWorld (orderbooks w) (Some tid)
                      (<[tid := UpdateLocked symbol b a]> (pc_of w))
                      (built w) (returned w))
  | build_update w tid symbol b a now :
      pc_of w tid = UpdateLocked symbol b a ->
      step w (mkWorld (orderbooks w) (lock w)
                      (<[tid := UpdateBuilt symbol (mkSnapshot b a now)]>
                         (pc_of w))
                      ((symbol, mkSnapshot b a now) :: built w)
                      (returned w))
  | store_update w tid symbol snap :
      pc_of w tid = UpdateBuilt symbol snap ->
      step w (mkWorld (<[symbol := snap]> (orderbooks w)) (lock w)
                      (<[tid := UpdateStored]> (pc_of w))
                      (built w) (returned w))
  | release_update w tid :
      pc_of w tid = UpdateStored ->
      step w (mkWorld (orderbooks w) None (<[tid := Idle]> (pc_of w))
                      (built w) (returned w))
  | call_get w tid symbol :
      pc_of w tid = Idle ->
      step w (at_pc w tid (GetEnter symbol))
  | acquire_get w tid symbol :
      pc_of w tid = GetEnter symbol ->
      lock w = None ->
      step w (mkWorld (orderbooks w) (Some tid)
                      (<[tid := GetLocked symbol]> (pc_of w))
                      (built w) (returned w))
  | read_get w tid symbol :
      pc_of w tid = GetLocked symbol ->
      step w (at_pc w tid (GetRead symbol (orderbooks w !! symbol)))
  | release_get w tid symbol value :
      pc_of w tid = GetRead symbol value ->
      step w (mkWorld (orderbooks w) None (<[tid := Idle]> (pc_of w))
                      (built w) ((tid, symbol, value) :: returned w)).

(** Worlds that some interleaving of the threads reaches. *)
Definition reachable (w : World) : Prop := rtc step initial w.

End Concurrent.

(** ** The order-book updater ([update_orderbooks])

    The thread that refreshes the books: round after round it goes through
    the symbol list, fetches the depth of each symbol and stores the first
    ten levels of either side.  Console output and the pauses (0.05 s after
    a fetch, 1 s after a failure, 0.5 s after a round) are left out. *)

(** Modelled from the spec: the depth source
    [fetchDepth(symbol, maxLevels) -> (bids, asks, timestamp)] of the
    exchange object ([ccxt], not part of the repository), which "fails with
    a transient error on network/venue issues".  One call either returns the
    two sides of the book or raises. *)
Inductive Fetched : Type :=
  | FetchedBook (b a : list Level)
  | FetchRaised (e : string).

(** What the handling of one symbol reads from outside: the outcome of
    [exchange.fetch_order_book(symbol, limit=20)] and the reading of
    [time.time()] inside [orderbook.update]. *)
Record PollEnv : Type := mkPollEnv {
  fetched : Fetched;
  poll_time : float
}.

Module Poller.

(** The number of levels kept by the slices [ob['bids'][:10]] and
    [ob['asks'][:10]]. *)
Definition DEPTH : nat := 10.

(** The body of the loop over the symbols: an exception of the fetch is
    caught and the store is left as it is. *)
Definition poll_symbol (orderbooks : gmap string Snapshot) (symbol : string)
    (env : PollEnv) : gmap string Snapshot :=
  match fetched env with
  | FetchedBook b a =>
      OrderBook.update (poll_time env) symbol (take DEPTH b) (take DEPTH a)
        orderbooks
  | FetchRaised _ => orderbooks
  end.

(** The loop [for symbol in symbols], the symbol at position [i] of the
    list being handled in the environment [env i]. *)
Fixpoint poll_from (i : nat) (symbols : list string) (env : nat -> PollEnv)
    (orderbooks : gmap string Snapshot) : gmap string Snapshot :=
  match symbols with
  | [] => orderbooks
  | symbol :: rest =>
      poll_from (S i) rest env (poll_symbol orderbooks symbol (env i))
  end.

(** Successive rounds of [while True], one per environment. *)
Fixpoint poll_rounds (symbols : list string) (envs : list (nat -> PollEnv))
    (orderbooks : gmap string Snapshot) : gmap string Snapshot :=
  match envs with
  | [] => orderbooks
  | env :: rest => poll_rounds symbols rest (poll_from 0 symbols env orderbooks)
  end.

End Poller.

(** ** Start-up of [main]: the symbols to poll *)

Module Startup.

(** [markets[s].get('active')] followed by Python's truth test: a missing
    key gives [None], which is false. *)
Definition active_or_none (a : ActiveField) : bool :=
  match a with
  | ActiveBool b => b
  | ActiveMissing | ActiveNone => false
  end.

(** [sub in s] on strings. *)
Fixpoint contains (sub s : string) : bool :=
  String.prefix sub s ||
  match s with
  | EmptyString => false
  | String _ rest => contains sub rest
  end.

(** The test of the list comprehension over [markets.keys()]. *)
Definition polled (item : string * Market) : bool :=
  active_or_none (m_active item.2) && contains "USDT" item.1.

(** [symbols], after the cut [symbols[:config.MAX_SYMBOLS]]. *)
Definition select_symbols (cfg : Config) (markets : list (string * Market))
    : list string :=
  slice_to (MAX_SYMBOLS cfg) (map fst (List.filter polled markets)).

End Startup.

(** ** The web dashboard ([create_dashboard]) *)

(** The values handed to the page template by the route [/]. *)
Record IndexContext : Type := mkIndexContext {
  ctx_trades : list Trade;
  ctx_stats : Stats;
  ctx_triangle_count : nat;
  ctx_trade_amount : float;
  ctx_timestamp : string
}.

Module Dashboard.

(** The number of trades shown, from [list(executor.trades)[:20]]. *)
Definition SHOWN : nat := 20.

(** The route [/]; [now] is the formatted wall-clock time. *)
Definition index (cfg : Config) (executor : Executor.t)
    (triangles : list Triangle) (now : string) : IndexContext :=
  mkIndexContext (take SHOWN (Executor.trades executor))
                 (Executor.stats executor) (length triangles)
                 (TRADE_AMOUNT cfg) now.

(** The route [/api/trades]. *)
Definition api_trades (executor : Executor.t) : list Trade :=
  Executor.trades executor.

(** The route [/api/stats]. *)
Definition api_stats (executor : Executor.t) : Stats :=
  Executor.stats executor.

End Dashboard.

(** * Vocabulary of the statements and sample data *)

(** ** Predicates used in the statements *)

Section StarSpec.
Import Scanner.

(** Edges that leave the hub end at another asset, and edges that leave
    another asset end at the hub. *)
Definition star (adj : gmap string (list Edge)) : Prop :=
  forall k n s d, (n, s, d) ∈ adj_get adj k ->
    (k = "USDT" -> n ≠ "USDT") /\ (k ≠ "USDT" -> n = "USDT").

End StarSpec.

(** What the loop over the results maintains: [acc] is
    [(best_opportunity, best_profit)] after the results [seen]. *)
Definition ranked (acc : option Opportunity * float)
    (seen : list (option Opportunity)) : Prop :=
  (0 <=? acc.2)%float = true /\
  (forall r, Some r ∈ seen -> (acc.2 <? profit_pct r)%float = false) /\
  match acc.1 with
  | None => acc.2 = 0%float
  | Some o =>
      acc.2 = profit_pct o /\
      exists earlier later,
        seen = earlier ++ Some o :: later /\
        forall r, Some r ∈ earlier ->
          (profit_pct o <=? profit_pct r)%float = false
  end.

Section CooldownSpec.
Import Bot.

(** The readings of [time.time()] by the passes, in the order taken. *)
Definition readings (envs : list TickEnv) : list float :=
  flat_map (fun env => [time_check env; time_fire env]) envs.

(** The passes span less than the cooldown: measured as the loop measures
    elapsed time, every reading is less than [COOLDOWN] after every earlier
    one. *)
Definition inside_cooldown (envs : list TickEnv) : Prop :=
  ForallOrdPairs (fun s t => (t - s <? COOLDOWN)%float = true)
                 (readings envs).

(** The opportunities handed to [execute]. *)
Definition dispatched (ds : list (option Opportunity)) : list Opportunity :=
  omap id ds.

End CooldownSpec.

(** Successive calls of [execute], each with its clock and opportunity. *)
Fixpoint execute_all (cfg : Config) (calls : list (ExecClock * Opportunity))
    (self : Executor.t) : Executor.t :=
  match calls with
  | [] => self
  | (clock, opportunity) :: rest =>
      execute_all cfg rest (Executor.execute cfg clock self opportunity).1.1
  end.

(** The trades that the calls record, newest first. *)
Definition recorded (cfg : Config) (calls : list (ExecClock * Opportunity))
    : list Trade :=
  rev (map (fun call => (Executor.trade_result cfg call.1 call.2).1) calls).

Section AtomicitySpec.
Import Concurrent.

(** A value that [get] may hand out for [symbol]: nothing, or a dictionary
    built by one call of [update] for that symbol. *)
Definition whole (w : World) (symbol : string) (value : option Snapshot)
    : Prop :=
  value = None \/ exists snap, value = Some snap /\ (symbol, snap) ∈ built w.

(** What every reachable world satisfies. *)
Record consistent (w : World) : Prop := mkConsistent {
  stored_whole : forall symbol, whole w symbol (orderbooks w !! symbol);
  pending_whole : forall tid symbol snap,
    pc_of w tid = UpdateBuilt symbol snap -> (symbol, snap) ∈ built w;
  read_whole : forall tid symbol value,
    pc_of w tid = GetRead symbol value -> whole w symbol value;
  returned_whole : forall tid symbol value,
    (tid, symbol, value) ∈ returned w -> whole w symbol value;
  holder : forall tid, in_lock (pc_of w tid) = true -> lock w = Some tid
}.

End AtomicitySpec.

Section AtomicityOrder.
Import Concurrent.




End AtomicityOrder.

(** ** Sample data *)

(** A market list as the venue publishes it: two hub pairs and a cross
    pair. *)
Definition sample_markets : list (string * Market) :=
  [("BTC/USDT", mkMarket (ActiveBool true) "BTC" "USDT");
   ("ETH/USDT", mkMarket ActiveMissing "ETH" "USDT");
   ("ETH/BTC", mkMarket (ActiveBool true) "ETH" "BTC")].

Definition sample_config : Config :=
  mkConfig true 3%float 0.3%float 0.3%float 100 500.

Definition btc_usdt : list (string * Market) :=
  [("BTC/USDT", mkMarket (ActiveBool true) "BTC" "USDT")].

(** The worked example: three books and the triangle through them. *)
Module WorkedExample.

Definition books : gmap string Snapshot :=
  OrderBook.update 0%float "LEG3" [(1050, 10)%float] []
    (OrderBook.update 0%float "LEG2" [] [(0.05, 10)%float]
       (OrderBook.update 0%float "LEG1" [] [(20000, 1)%float]
          OrderBook.empty)).

Definition triangle : Triangle :=
  mkTriangle ["USDT"; "A"; "B"] ["LEG1"; "LEG2"; "LEG3"] [buy; buy; sell]
             "USDT → A → B → USDT".

Definition with_min_profit (p : float) : Config :=
  mkConfig true 3%float p 0.3%float 100 500.

(** [|x - y| < tol]. *)
Definition within (tol x y : float) : bool := (abs (x - y) <? tol)%float.

End WorkedExample.

(** The worked example with a third book that holds 0.001 units only. *)
Definition thin_books : gmap string Snapshot :=
  OrderBook.update 0%float "LEG3" [(1050, 0.001)%float] [] WorkedExample.books.

Module RoundedTie.

(** Two triangles that differ in their first book only. *)
Definition books : gmap string Snapshot :=
  OrderBook.update 0%float "A2" [(1.013101, 1000)%float] []
    (OrderBook.update 0%float "A1" [(1.0131, 1000)%float] []
       (OrderBook.update 0%float "U" [(1, 1000)%float] [] OrderBook.empty)).

Definition one : Triangle :=
  mkTriangle ["USDT"; "X"; "Y"] ["A1"; "U"; "U"] [sell; sell; sell] "one".

Definition two : Triangle :=
  mkTriangle ["USDT"; "X"; "Y"] ["A2"; "U"; "U"] [sell; sell; sell] "two".

Definition env : TickEnv :=
  mkTickEnv (fun _ => books) (fun _ => "12:00:00") 1000%float 1000%float
            (mkExecClock 1000 "2024-01-01T12:00:00").

Definition bot : Bot.t := Bot.init (mkExchange (fun _ _ _ => None)).

End RoundedTie.

(** Three passes within one second, each finding the two triangles of
    [RoundedTie] above the threshold. *)
Definition pass_at (check fire : float) : TickEnv :=
  mkTickEnv (fun _ => RoundedTie.books) (fun _ => "12:00:00") check fire
            (mkExecClock 1000 "2024-01-01T12:00:00").

Definition three_passes : list TickEnv :=
  [pass_at 1000 1000.1; pass_at 1000.4 1000.5; pass_at 1000.8 1000.9]%float.

(** A run of 101 calls, the call number [i] stamped with the epoch [i]: the
    history holds the trades of the calls 100 down to 1, the trade of call 0
    is gone, and the counter stands at 101. *)
Definition numbered_calls (n : nat) : list (ExecClock * Opportunity) :=
  map (fun i => (mkExecClock i "2024-01-01T12:00:00",
                 mkOpportunity "one" ["A1"; "U"; "U"] 1.006%float 0.03%float
                               "12:00:00"))
      (seqZ 0 (Z.of_nat n)).

Module LiveReject.

(** An exchange on which every submission fails. *)
Definition rejecting : Exchange := mkExchange (fun _ _ _ => Some "rejected").

Definition live : Config := mkConfig false 3%float 0.3%float 0.3%float 100 500.

Definition clock : ExecClock := mkExecClock 1000 "2024-01-01T12:00:00".

Definition opportunity : Opportunity :=
  mkOpportunity "one" ["A1"; "U"; "U"] 1.006%float 0.03%float "12:00:00".

End LiveReject.

(** ** Further predicates and sample data *)

(** A market that [build_adjacency] keeps: active and touching the hub. *)
Definition hub_active (market : Market) : bool :=
  active_or_true (m_active market) &&
  negb (bool_decide (m_quote market ≠ "USDT") &&
        bool_decide (m_base market ≠ "USDT")).

(** The markets that put an entry under the key [k]: as base asset, and as
    quote asset. *)
Definition as_base (k : string) (item : string * Market) : bool :=
  hub_active item.2 && bool_decide (m_base item.2 = k).

Definition as_quote (k : string) (item : string * Market) : bool :=
  hub_active item.2 && bool_decide (m_quote item.2 = k).

(** A symbol of a market whose base and quote are both the hub. *)
Definition self_quoted (markets : list (string * Market)) (symbol : string)
    : Prop :=
  exists market,
    (symbol, market) ∈ markets /\
    m_base market = "USDT" /\ m_quote market = "USDT".

(** Entries under another key than the hub lead to the hub, and an entry
    from the hub to the hub comes from a market quoted in itself. *)
Definition hub_bound (markets : list (string * Market))
    (adj : gmap string (list Edge)) : Prop :=
  forall k n s d, (n, s, d) ∈ Scanner.adj_get adj k ->
    (k ≠ "USDT" -> n = "USDT") /\
    (k = "USDT" -> n = "USDT" -> self_quoted markets s).

(** Two stores that hold the same levels under every symbol, whatever the
    timestamps. *)
Definition same_depth (books books' : gmap string Snapshot) : Prop :=
  forall symbol,
    (fun snap => (bids snap, asks snap)) <$> books !! symbol =
    (fun snap => (bids snap, asks snap)) <$> books' !! symbol.

(** Every stored book has at most [Poller.DEPTH] levels on either side. *)
Definition shallow (books : gmap string Snapshot) : Prop :=
  forall symbol snap, books !! symbol = Some snap ->
    (length (bids snap) <= Poller.DEPTH)%nat /\
    (length (asks snap) <= Poller.DEPTH)%nat.

(** The test [trade_result['profit_usd'] > 0] of [execute]. *)
Definition gainful (tr : Trade) : bool := PyFloat.gt (tr_profit_usd tr) 0%float.

(** A hub market quoted in itself beside two ordinary hub pairs. *)
Definition looped_markets : list (string * Market) :=
  [("USDT/USDT", mkMarket (ActiveBool true) "USDT" "USDT");
   ("BTC/USDT", mkMarket (ActiveBool true) "BTC" "USDT");
   ("ETH/USDT", mkMarket (ActiveBool true) "ETH" "USDT")].

Definition capped (n : Z) : Config :=
  mkConfig true 3%float 0.3%float 0.3%float 100 n.

(** The worked example with other timestamps. *)
Definition later_books : gmap string Snapshot :=
  OrderBook.update 7%float "LEG3" [(1050, 10)%float] []
    (OrderBook.update 8%float "LEG2" [] [(0.05, 10)%float]
       (OrderBook.update 9%float "LEG1" [] [(20000, 1)%float]
          OrderBook.empty)).

(** A fetch that returns twelve levels a side. *)
Definition deep_fetch : nat -> PollEnv := fun _ =>
  mkPollEnv (FetchedBook (replicate 12 (20000, 1)%float)
                         (replicate 12 (20001, 1)%float)) 1000%float.

(** The entry [e] under the key [k] is one of the two that the market
    [item] puts into the adjacency. *)
Definition entry_of (k : string) (e : Edge) (item : string * Market) : Prop :=
  hub_active item.2 = true /\
  (e = (m_quote item.2, item.1, buy) /\ k = m_base item.2 \/
   e = (m_base item.2, item.1, sell) /\ k = m_quote item.2).

(** What [best_trade] is with respect to the trades recorded so far: no
    gainful trade is above it, and it is the initial 0 or the profit of one
    of them. *)
Definition best_of (best : float) (seen : list Trade) : Prop :=
  (forall tr, tr ∈ seen -> gainful tr = true ->
     (best <? tr_profit_usd tr)%float = false) /\
  (best = 0%float \/
   exists tr, tr ∈ seen /\ gainful tr = true /\ best = tr_profit_usd tr).

(** What the loop over the results maintains beside [ranked]: the best
    profit is not negative, and a selected result is above zero. *)
Definition above_zero (acc : option Opportunity * float) : Prop :=
  (0 <=? acc.2)%float = true /\
  forall o, acc.1 = Some o -> (0 <? profit_pct o)%float = true.

(** What the walk of a whole side of a book leaves and yields when no level
    ends it: for bids, each level takes its volume from the remainder and
    adds volume times price; for asks, each level takes its cost and adds
    its volume. *)
Definition bids_consumed (levels : list Level) (remaining received : float)
    : float * float :=
  fold_left (fun acc level =>
               ((acc.1 + level.2 * level.1)%float, (acc.2 - level.2)%float))
            levels (received, remaining).

Definition asks_consumed (levels : list Level) (remaining acquired : float)
    : float * float :=
  fold_left (fun acc level =>
               ((acc.1 + level.2)%float, (acc.2 - level.1 * level.2)%float))
            levels (acquired, remaining).

(** * Properties *)

(** ** Order facts on binary64 floats *)

Module FloatOrder.

Ltac cmp_cases :=
  repeat match goal with
  | |- context [PosDef.Pos.compare_cont Eq ?a ?b] =>
      change (PosDef.Pos.compare_cont Eq a b) with (Pos.compare a b)
  | H : context [PosDef.Pos.compare_cont Eq ?a ?b] |- _ =>
      change (PosDef.Pos.compare_cont Eq a b) with (Pos.compare a b) in H
  | |- context [Z.compare ?a ?b] => destruct (Z.compare_spec a b)
  | H : context [Z.compare ?a ?b] |- _ => destruct (Z.compare_spec a b)
  | |- context [Pos.compare ?a ?b] => destruct (Pos.compare_spec a b)
  | H : context [Pos.compare ?a ?b] |- _ => destruct (Pos.compare_spec a b)
  end.

Ltac by_compare :=
  unfold SFltb, SFleb, SFeqb, SFcompare;
  repeat match goal with
  | x : spec_float |- _ => destruct x as [[|]|[|]| |[|] ? ?]
  end;
  try (simpl; congruence);
  intros; cmp_cases; simpl in *; try congruence; try lia.

Lemma SFltb_trans x y z :
  SFltb x y = true -> SFltb y z = true -> SFltb x z = true.
Proof. by_compare. Qed.

Lemma SFltb_irrefl x : SFltb x x = false.
Proof. by_compare. Qed.

Lemma SFltb_leb_trans x y z :
  SFltb x y = true -> SFleb y z = true -> SFltb x z = true.
Proof. by_compare. Qed.

Lemma SFleb_ltb_trans x y z :
  SFleb x y = true -> SFltb y z = true -> SFltb x z = true.
Proof. by_compare. Qed.

Lemma SFltb_false_leb x y :
  SFltb x y = false -> SFeqb x x = true -> SFeqb y y = true ->
  SFleb y x = true.
Proof. by_compare. Qed.

Lemma SFltb_leb x y : SFltb x y = true -> SFleb x y = true.
Proof. by_compare. Qed.

Lemma ltb_leb (x y : float) :
  (x <? y)%float = true -> (x <=? y)%float = true.
Proof.
  rewrite FloatAxioms.ltb_spec, FloatAxioms.leb_spec. apply SFltb_leb.
Qed.

Lemma ltb_trans (x y z : float) :
  (x <? y)%float = true -> (y <? z)%float = true -> (x <? z)%float = true.
Proof. rewrite !FloatAxioms.ltb_spec. apply SFltb_trans. Qed.

Lemma ltb_irrefl (x : float) : (x <? x)%float = false.
Proof. rewrite FloatAxioms.ltb_spec. apply SFltb_irrefl. Qed.

Lemma ltb_leb_trans (x y z : float) :
  (x <? y)%float = true -> (y <=? z)%float = true -> (x <? z)%float = true.
Proof.
  rewrite !FloatAxioms.ltb_spec, FloatAxioms.leb_spec. apply SFltb_leb_trans.
Qed.

Lemma leb_ltb_trans (x y z : float) :
  (x <=? y)%float = true -> (y <? z)%float = true -> (x <? z)%float = true.
Proof.
  rewrite !FloatAxioms.ltb_spec, FloatAxioms.leb_spec. apply SFleb_ltb_trans.
Qed.

(** Without NaN the order is total. *)
Lemma ltb_false_leb (x y : float) :
  (x <? y)%float = false -> (x =? x)%float = true -> (y =? y)%float = true ->
  (y <=? x)%float = true.
Proof.
  rewrite FloatAxioms.ltb_spec, FloatAxioms.leb_spec, !FloatAxioms.eqb_spec.
  apply SFltb_false_leb.
Qed.

End FloatOrder.

(** ** The builtin [round] on known values

    The values are those of CPython: ties of the exact binary value go to
    the even decimal, the sign of a zero result is kept, and floats that are
    integers, infinities and NaN are returned as they are. *)

Example round_known_values :
  PyFloat.round 0.0625 3 = 0.062%float /\
  PyFloat.round 2.675 2 = 2.67%float /\
  PyFloat.round 1.0005 3 = 1%float /\
  PyFloat.round 1.0015 3 = 1.002%float /\
  PyFloat.round 4.6853148949999923 3 = 4.685%float /\
  PyFloat.round (-0.0001) 3 = neg_zero /\
  PyFloat.round 1e22 3 = 1e22%float /\
  PyFloat.round infinity 2 = infinity /\
  PyFloat.round nan 3 = nan.
Proof. repeat split; vm_compute; reflexivity. Qed.

(** ** The pair graph is a star around the hub *)

Section StarGraph.
Import Scanner.

Lemma adj_get_append adj k e k' :
  adj_get (adj_append k e adj) k' =
    if decide (k = k') then adj_get adj k ++ [e] else adj_get adj k'.
Proof.
  unfold adj_get, adj_append. rewrite lookup_insert.
  destruct (decide (k = k')) as [->|]; reflexivity.
Qed.

Lemma star_empty : star ∅.
Proof. intros k n s d. unfold adj_get. rewrite lookup_empty. inversion 1. Qed.

Lemma star_append adj k n s d :
  star adj ->
  (k = "USDT" -> n ≠ "USDT") -> (k ≠ "USDT" -> n = "USDT") ->
  star (adj_append k (n, s, d) adj).
Proof.
  intros Hadj Hhub Hleaf k' n' s' d'. rewrite adj_get_append.
  destruct (decide (k = k')) as [<-|]; [|apply Hadj].
  rewrite elem_of_app, list_elem_of_singleton.
  intros [Hold|[= -> -> ->]]; [exact (Hadj _ _ _ _ Hold)|auto].
Qed.

Lemma star_add_market adj symbol market :
  m_base market ≠ m_quote market ->
  star adj -> star (add_market adj (symbol, market)).
Proof.
  intros Hne Hadj. unfold add_market.
  destruct (negb _); [exact Hadj|].
  destruct (bool_decide (m_quote market ≠ "USDT") &&
            bool_decide (m_base market ≠ "USDT")) eqn:Hskip; [exact Hadj|].
  apply andb_false_iff in Hskip.
  rewrite !bool_decide_eq_false in Hskip.
  assert (m_quote market = "USDT" \/ m_base market = "USDT") as Hhub.
  { destruct Hskip as [H|H]; [left|right].
    - destruct (decide (m_quote market = "USDT")); tauto.
    - destruct (decide (m_base market = "USDT")); tauto. }
  apply star_append; [apply star_append; [exact Hadj|..]|..];
    intros; destruct Hhub; congruence.
Qed.

Lemma star_fold markets : forall adj,
  (forall symbol market, (symbol, market) ∈ markets ->
     m_base market ≠ m_quote market) ->
  star adj -> star (fold_left add_market markets adj).
Proof.
  induction markets as [|[symbol market] rest IH]; intros adj Hne Hadj;
    [exact Hadj|].
  simpl. apply IH.
  - intros s m Hin. apply (Hne s m). by right.
  - apply star_add_market; [|exact Hadj]. apply (Hne symbol). by left.
Qed.

Lemma flat_map_nil {A B} (f : A -> list B) (l : list A) :
  (forall x, x ∈ l -> f x = []) -> flat_map f l = [].
Proof.
  induction l as [|x l IH]; intros H; [reflexivity|].
  simpl. rewrite (H x) by by left. apply IH. intros y Hy. apply H. by right.
Qed.

Lemma enumerate_star adj first :
  star adj -> adj !! "USDT" = Some first -> enumerate adj "USDT" first = [].
Proof.
  intros Hadj Hfirst. unfold enumerate.
  apply flat_map_nil. intros [[b sab] dab] Hb.
  assert (b ≠ "USDT") as Hbne.
  { apply (Hadj "USDT" b sab dab); [|reflexivity].
    unfold adj_get. by rewrite Hfirst. }
  apply flat_map_nil. intros [[c sbc] dbc] Hc.
  destruct (Hadj b c sbc dbc Hc) as [_ Hhub].
  rewrite bool_decide_eq_true_2 by auto. reflexivity.
Qed.

Lemma slice_to_nil {A} n : slice_to n (@nil A) = [].
Proof. unfold slice_to. destruct (0 <=? n); apply take_nil. Qed.

Lemma find_triangles_star cfg markets :
  (forall symbol market, (symbol, market) ∈ markets ->
     m_base market ≠ m_quote market) ->
  find_triangles cfg markets = [].
Proof.
  intros Hne. unfold find_triangles.
  destruct (build_adjacency markets !! "USDT") as [first|] eqn:Hfirst;
    [|reflexivity].
  rewrite enumerate_star; [apply slice_to_nil| |exact Hfirst].
  apply star_fold; [exact Hne|apply star_empty].
Qed.

End StarGraph.

(** ** A pass over no triangles dispatches nothing *)

Lemma tick_no_triangles cfg env bot : (Bot.tick cfg [] env bot).2 = None.
Proof. reflexivity. Qed.

Lemma run_cons cfg triangles env rest bot :
  (Bot.run cfg triangles (env :: rest) bot).2 =
    (Bot.tick cfg triangles env bot).2 ::
    (Bot.run cfg triangles rest (Bot.tick cfg triangles env bot).1).2.
Proof.
  cbn [Bot.run]. destruct (Bot.tick cfg triangles env bot) as [bot1 d].
  cbn [fst snd]. by destruct (Bot.run cfg triangles rest bot1).
Qed.

Lemma run_no_triangles cfg envs : forall bot,
  Forall (fun d => d = None) (Bot.run cfg [] envs bot).2.
Proof.
  induction envs as [|env rest IH]; intros bot; [constructor|].
  rewrite run_cons. constructor; [apply tick_no_triangles|apply IH].
Qed.

(** C1: when no market has its base asset equal to its quote asset,
    [find_triangles] returns the empty list, whatever the markets are; and a
    trading loop that runs on that list never hands an opportunity to
    [execute]. *)
Theorem find_triangles_empty cfg (markets : list (string * Market)) :
  (forall symbol market, (symbol, market) ∈ markets ->
     m_base market ≠ m_quote market) ->
  Scanner.find_triangles cfg markets = [] /\
  forall envs bot,
    Forall (fun d => d = None)
      (Bot.run cfg (Scanner.find_triangles cfg markets) envs bot).2.
Proof.
  intros Hne. pose proof (find_triangles_star cfg markets Hne) as Hnil.
  split; [exact Hnil|]. intros envs bot. rewrite Hnil. apply run_no_triangles.
Qed.

Lemma find_triangles_empty_witness :
  Scanner.find_triangles sample_config sample_markets = [] /\
  forall envs bot,
    Forall (fun d => d = None)
      (Bot.run sample_config
         (Scanner.find_triangles sample_config sample_markets) envs bot).2.
Proof.
  apply (find_triangles_empty sample_config sample_markets).
  intros symbol market Hin. unfold sample_markets in Hin.
  repeat (apply elem_of_cons in Hin as [[= -> ->]|Hin]; [simpl; discriminate|]).
  by apply elem_of_nil in Hin.
Defined.

(** The hypothesis of C1 is needed: a market quoted in itself at the hub
    lets the enumeration pass the hub as first asset. *)
Example find_triangles_self_quoted :
  Scanner.find_triangles sample_config
    [("USDT/USDT", mkMarket (ActiveBool true) "USDT" "USDT");
     ("BTC/USDT", mkMarket (ActiveBool true) "BTC" "USDT")] ≠ [].
Proof. vm_compute. discriminate. Qed.

(** ** Edge labels *)

(** For an active market that touches the hub, the loop body appends two
    entries: under the base asset the entry that leads to the quote asset,
    tagged [buy], and under the quote asset the entry that leads to the base
    asset, tagged [sell]. *)
Lemma add_market_edges adj symbol market :
  active_or_true (m_active market) = true ->
  m_base market = "USDT" \/ m_quote market = "USDT" ->
  Scanner.add_market adj (symbol, market) =
    Scanner.adj_append (m_quote market) (m_base market, symbol, sell)
      (Scanner.adj_append (m_base market) (m_quote market, symbol, buy) adj).
Proof.
  intros Hactive Hhub. unfold Scanner.add_market. rewrite Hactive. simpl.
  destruct Hhub as [H|H]; rewrite H; simpl; [|reflexivity].
  by rewrite andb_false_r.
Qed.

(** C2: on the single active market BTC/USDT (base BTC, quote USDT),
    [build_adjacency] inserts two entries, and tags them the other way round
    than the claim: the edge from the base asset BTC to the quote asset USDT
    carries [buy], and the edge from the quote asset USDT to the base asset
    BTC carries [sell]. *)
Theorem build_adjacency_labels_swapped :
  Scanner.build_adjacency btc_usdt !! "BTC" = Some [("USDT", "BTC/USDT", buy)] /\
  Scanner.build_adjacency btc_usdt !! "USDT" = Some [("BTC", "BTC/USDT", sell)].
Proof. split; reflexivity. Qed.

(** What the swapped tag does to a leg: with 3 USDT and the book of BTC/USDT
    at 20000 (bid) and 20001 (ask), the leg that the graph offers from USDT
    to BTC is walked as a sale of 3 units against the bids. *)
Example swapped_leg_walk :
  let books := OrderBook.update 0%float "BTC/USDT"
                 [(20000, 10)%float] [(20001, 10)%float] OrderBook.empty in
  Simulator.leg books 3%float ("BTC/USDT", sell) = PyFloat.Next 59940%float.
Proof. vm_compute. reflexivity. Qed.

(** ** The depth walk on the worked example *)

Section WorkedExampleFacts.
Import PyFloat Simulator WorkedExample.

Lemma worked_leg1 :
  legs books 3%float [("LEG1", buy)] = Next 0.00014984999999999998%float.
Proof. vm_compute. reflexivity. Qed.

Lemma worked_leg2 :
  legs books 3%float [("LEG1", buy); ("LEG2", buy)] =
    Next 0.0029940029999999999%float.
Proof. vm_compute. reflexivity. Qed.

Lemma worked_leg3 :
  legs books 3%float (zip (t_pairs triangle) (t_directions triangle)) =
    Next 3.1405594468499998%float.
Proof. vm_compute. reflexivity. Qed.

Lemma worked_figures :
  profit_of 3.1405594468499998%float 3%float =
    Next (0.14055944684999977, 4.6853148949999923)%float.
Proof. vm_compute. reflexivity. Qed.

Lemma worked_simulate_cases cfg now :
  simulate_triangle cfg books now triangle 3%float =
    if (4.6853148949999923 <? MIN_PROFIT cfg)%float then None
    else Some (mkOpportunity (t_string triangle) (t_pairs triangle)
                 4.685%float 0.14%float now).
Proof.
  unfold simulate_triangle, simulate_body, unrounded. rewrite worked_leg3.
  change (Next 3.1405594468499998%float ≫= ?k) with (k 3.1405594468499998%float).
  cbv beta. rewrite worked_figures.
  change (Next ?v ≫= ?k) with (k v). cbv beta iota.
  destruct (4.6853148949999923 <? MIN_PROFIT cfg)%float; [reflexivity|].
  vm_compute. reflexivity.
Qed.

End WorkedExampleFacts.

(** The claim as stated for C4 fails: with the threshold at 4.69 the
    worked example is not reported, because its profit is about 4.6853 per
    cent. *)
Lemma worked_example_not_reported_at_4_69 :
  (4.69 <=? 4.69)%float = true /\
  Simulator.simulate_triangle (WorkedExample.with_min_profit 4.69)
    WorkedExample.books "12:00:00" WorkedExample.triangle 3%float = None.
Proof. split; vm_compute; reflexivity. Qed.

(** C4 (amended): on the worked example with start amount 3 the three legs
    yield about 0.00014985, 0.0029940 and 3.1406 after the fee, the profit
    is about 0.1406, that is about 4.69 per cent, each within half a unit of
    the last digit quoted; and the triangle is reported, with the figures
    rounded to 4.685 and 0.14, whenever the minimum-profit threshold is at
    most 4.685. *)
Theorem worked_example_reported cfg now :
  (MIN_PROFIT cfg <=? 4.685)%float = true ->
  exists x1 x2 x3 profit pct,
    Simulator.legs WorkedExample.books 3%float [("LEG1", buy)]
      = PyFloat.Next x1 /\
    WorkedExample.within 5e-9 x1 0.00014985 = true /\
    Simulator.legs WorkedExample.books 3%float [("LEG1", buy); ("LEG2", buy)]
      = PyFloat.Next x2 /\
    WorkedExample.within 5e-8 x2 0.0029940 = true /\
    Simulator.legs WorkedExample.books 3%float
      [("LEG1", buy); ("LEG2", buy); ("LEG3", sell)] = PyFloat.Next x3 /\
    WorkedExample.within 5e-5 x3 3.1406 = true /\
    Simulator.profit_of x3 3%float = PyFloat.Next (profit, pct) /\
    WorkedExample.within 5e-5 profit 0.1406 = true /\
    WorkedExample.within 5e-3 pct 4.69 = true /\
    PyFloat.round pct 3 = 4.685%float /\
    PyFloat.round profit 2 = 0.14%float /\
    Simulator.simulate_triangle cfg WorkedExample.books now
      WorkedExample.triangle 3%float
    = Some (mkOpportunity "USDT → A → B → USDT" ["LEG1"; "LEG2"; "LEG3"]
              (PyFloat.round pct 3) (PyFloat.round profit 2) now).
Proof.
  intros Hmin.
  exists 0.00014984999999999998%float, 0.0029940029999999999%float,
         3.1405594468499998%float, 0.14055944684999977%float,
         4.6853148949999923%float.
  repeat split; try (vm_compute; reflexivity).
  rewrite worked_simulate_cases.
  destruct (4.6853148949999923 <? MIN_PROFIT cfg)%float eqn:Hlt.
  - pose proof (FloatOrder.ltb_leb_trans _ _ _ Hlt Hmin) as Habs.
    vm_compute in Habs. discriminate Habs.
  - vm_compute. reflexivity.
Qed.

Lemma worked_example_reported_witness :
  (MIN_PROFIT (WorkedExample.with_min_profit 0.3) <=? 4.685)%float = true /\
  exists o, Simulator.simulate_triangle (WorkedExample.with_min_profit 0.3)
              WorkedExample.books "12:00:00" WorkedExample.triangle 3%float
            = Some o.
Proof.
  split; [reflexivity|].
  destruct (worked_example_reported (WorkedExample.with_min_profit 0.3)
              "12:00:00" eq_refl)
    as (x1 & x2 & x3 & profit & pct & H).
  eexists. apply H.
Defined.

(** ** Missing books and insufficient depth *)

Section SimulateNone.
Import PyFloat Simulator.

Lemma legs_app books l1 : forall current l2,
  legs books current (l1 ++ l2) =
    c ← legs books current l1; legs books c l2.
Proof.
  induction l1 as [|pd l1 IH]; intros current l2; [reflexivity|].
  cbn [app legs]. destruct (leg books current pd) as [c| |e]; try reflexivity.
  apply IH.
Qed.

(** A leg without a stored book ends the simulation without a result,
    whatever the legs before it did. *)
Lemma legs_missing_book books amount before pair direction after :
  OrderBook.get pair books = None ->
  forall c, legs books amount (before ++ (pair, direction) :: after) ≠ Next c.
Proof.
  intros Hnone c. rewrite legs_app.
  destruct (legs books amount before) as [c0| |e]; try discriminate.
  cbn [mbind Flow_bind legs]. unfold leg. cbn [fst]. rewrite Hnone.
  discriminate.
Qed.

(** A leg whose walk leaves more than [EPSILON] unfilled does the same. *)
Lemma legs_unfilled books amount before pair direction after
    current ob out remaining :
  legs books amount before = Next current ->
  OrderBook.get pair books = Some ob ->
  walk ob direction current = Next (out, remaining) ->
  gt remaining EPSILON = true ->
  legs books amount (before ++ (pair, direction) :: after) = ReturnNone.
Proof.
  intros Hbefore Hbook Hwalk Hgt. rewrite legs_app, Hbefore.
  cbn [mbind Flow_bind legs]. unfold leg. cbn [fst snd].
  rewrite Hbook, Hwalk. cbn [mbind Flow_bind]. rewrite Hgt. reflexivity.
Qed.

Lemma simulate_legs_not_next cfg books now triangle amount :
  (forall c, legs books amount
               (zip (t_pairs triangle) (t_directions triangle)) ≠ Next c) ->
  simulate_triangle cfg books now triangle amount = None.
Proof.
  intros H. unfold simulate_triangle, simulate_body, unrounded.
  destruct (legs books amount _) as [c| |e]; [by destruct (H c)|done|done].
Qed.

End SimulateNone.

(** C5: [simulate_triangle] returns [None] whenever some leg of the
    triangle has no stored order book, or is reached with an amount that its
    book cannot fill, the walk over all its levels leaving more than
    0.00001 unfilled. *)
Theorem simulate_none_on_missing_or_thin_book
    cfg books now triangle amount before pair direction after :
  zip (t_pairs triangle) (t_directions triangle)
    = before ++ (pair, direction) :: after ->
  OrderBook.get pair books = None \/
  (exists current ob out remaining,
     Simulator.legs books amount before = PyFloat.Next current /\
     OrderBook.get pair books = Some ob /\
     Simulator.walk ob direction current = PyFloat.Next (out, remaining) /\
     PyFloat.gt remaining 0.00001 = true) ->
  Simulator.simulate_triangle cfg books now triangle amount = None.
Proof.
  intros Hlegs [Hnone|(current & ob & out & remaining & Hb & Hbook & Hw & Hgt)];
    apply simulate_legs_not_next; intros c; rewrite Hlegs.
  - by apply legs_missing_book.
  - by rewrite (legs_unfilled _ _ _ _ _ _ _ _ _ _ Hb Hbook Hw Hgt).
Qed.

Lemma simulate_none_on_missing_or_thin_book_witness :
  Simulator.simulate_triangle sample_config thin_books "12:00:00"
    WorkedExample.triangle 3%float = None.
Proof.
  apply (simulate_none_on_missing_or_thin_book sample_config thin_books
           "12:00:00" WorkedExample.triangle 3%float
           [("LEG1", buy); ("LEG2", buy)] "LEG3" sell []).
  - reflexivity.
  - right.
    exists 0.0029940029999999999%float,
           (mkSnapshot [(1050, 0.001)%float] [] 0%float),
           1.05%float, 0.0019940029999999999%float.
    repeat split; vm_compute; reflexivity.
Defined.

(** ** Ranking inside one pass *)

Section Ranking.
Import Bot.

Lemma ranked_nil : ranked (None, 0%float) [].
Proof.
  split; [reflexivity|]. split; [|reflexivity].
  intros r Hr. by apply elem_of_nil in Hr.
Qed.

Lemma not_true_false (b : bool) : (b = true -> False) -> b = false.
Proof. destruct b; [intros H; destruct H; reflexivity|reflexivity]. Qed.

Lemma ranked_step acc seen result :
  ranked acc seen -> ranked (select_step acc result) (seen ++ [result]).
Proof.
  destruct acc as [best bp]. intros (Hpos & Hall & Hbest).
  cbn [fst snd] in *. unfold select_step.
  destruct result as [r|]; cbn [snd].
  - unfold PyFloat.gt. destruct (bp <? profit_pct r)%float eqn:Hgt.
    + (* the new result becomes the best *)
      split; [|split]; cbn [fst snd].
      * apply FloatOrder.ltb_leb.
        exact (FloatOrder.leb_ltb_trans _ _ _ Hpos Hgt).
      * intros r0 [Hr0|Hr0]%elem_of_app.
        -- apply not_true_false. intros Hlt.
           pose proof (FloatOrder.ltb_trans _ _ _ Hgt Hlt) as Habs.
           rewrite (Hall r0 Hr0) in Habs. discriminate.
        -- apply list_elem_of_singleton in Hr0 as [= ->].
           apply FloatOrder.ltb_irrefl.
      * split; [reflexivity|]. exists seen, []. split; [reflexivity|].
        intros r0 Hr0. apply not_true_false. intros Hle.
        pose proof (FloatOrder.ltb_leb_trans _ _ _ Hgt Hle) as Habs.
        rewrite (Hall r0 Hr0) in Habs. discriminate.
    + (* the best so far stays *)
      split; [exact Hpos|]. split; cbn [fst snd].
      * intros r0 [Hr0|Hr0]%elem_of_app; [by apply Hall|].
        by apply list_elem_of_singleton in Hr0 as [= ->].
      * destruct best as [o|]; [|exact Hbest].
        destruct Hbest as (Hbp & earlier & later & -> & Hearlier).
        split; [exact Hbp|]. exists earlier, (later ++ [Some r]).
        split; [|exact Hearlier]. by rewrite <- app_assoc.
  - split; [exact Hpos|]. split; cbn [fst snd].
    + intros r0 [Hr0|Hr0]%elem_of_app; [by apply Hall|].
      by apply list_elem_of_singleton in Hr0.
    + destruct best as [o|]; [|exact Hbest].
      destruct Hbest as (Hbp & earlier & later & -> & Hearlier).
      split; [exact Hbp|]. exists earlier, (later ++ [None]).
      split; [|exact Hearlier]. by rewrite <- app_assoc.
Qed.

Lemma ranked_fold results : forall acc seen,
  ranked acc seen -> ranked (fold_left select_step results acc) (seen ++ results).
Proof.
  induction results as [|result rest IH]; intros acc seen Hacc.
  - by rewrite app_nil_r.
  - cbn [fold_left]. replace (seen ++ result :: rest)
      with ((seen ++ [result]) ++ rest) by by rewrite <- app_assoc.
    apply IH. by apply ranked_step.
Qed.

Lemma select_best_ranked results : ranked (select_best results) results.
Proof. apply (ranked_fold results (None, 0%float) []). apply ranked_nil. Qed.

(** The selected result is the first one that no other result beats. *)
Lemma select_best_first_maximum results o best :
  select_best results = (Some o, best) ->
  best = profit_pct o /\
  (0 <=? best)%float = true /\
  exists earlier later,
    results = earlier ++ Some o :: later /\
    (forall r, Some r ∈ earlier ->
       (profit_pct o <=? profit_pct r)%float = false) /\
    (forall r, Some r ∈ later ->
       (profit_pct o <? profit_pct r)%float = false).
Proof.
  intros Hsel. pose proof (select_best_ranked results) as H.
  rewrite Hsel in H. destruct H as (Hpos & Hall & Hbp & earlier & later & Hres & He).
  cbn [fst snd] in *. subst best.
  split; [reflexivity|]. split; [exact Hpos|].
  exists earlier, later. split; [exact Hres|]. split; [exact He|].
  intros r Hr. apply Hall. rewrite Hres.
  apply elem_of_app. right. by right.
Qed.

End Ranking.

(** ** One pass of the loop *)

Section TickFacts.
Import Bot.

(** A pass that dispatches: the opportunity is the one selected, its
    rounded profit passed the second threshold test, the cooldown test did
    not hold the pass back, and [execute] ran once. *)
Lemma tick_dispatch cfg triangles env bot o :
  (tick cfg triangles env bot).2 = Some o ->
  select_best (scan cfg env triangles) = (Some o, profit_pct o) /\
  PyFloat.ge (profit_pct o) (MIN_PROFIT cfg) = true /\
  (time_check env - last_opportunity_time bot <? COOLDOWN)%float = false /\
  (tick cfg triangles env bot).1 =
    mk (scan_count bot + 1) (time_fire env)
       (Executor.execute cfg (exec_clock env) (executor bot) o).1.1.
Proof.
  unfold tick.
  destruct (select_best (scan cfg env triangles)) as [best bp] eqn:Hsel.
  destruct best as [opp|]; [|discriminate].
  destruct (select_best_first_maximum _ _ _ Hsel) as (-> & _).
  destruct (PyFloat.ge (profit_pct opp) (MIN_PROFIT cfg)) eqn:Hge;
    [|discriminate].
  destruct (time_check env - last_opportunity_time bot <? COOLDOWN)%float
    eqn:Hcool; [discriminate|].
  destruct (Executor.execute cfg (exec_clock env) (executor bot) opp)
    as [[ex tr] eff] eqn:Hex.
  cbn [fst snd]. intros [= <-]. rewrite Hge, Hex. done.
Qed.

(** A pass that does not dispatch leaves the executor and the last
    trigger time as they were. *)
Lemma tick_quiet cfg triangles env bot :
  (tick cfg triangles env bot).2 = None ->
  (tick cfg triangles env bot).1 =
    mk (scan_count bot + 1) (last_opportunity_time bot) (executor bot).
Proof.
  unfold tick.
  destruct (select_best (scan cfg env triangles)) as [[opp|] bp]; [|done].
  destruct (PyFloat.ge bp (MIN_PROFIT cfg)); [|done].
  destruct (time_check env - last_opportunity_time bot <? COOLDOWN)%float;
    [done|].
  by destruct (Executor.execute cfg (exec_clock env) (executor bot) opp)
    as [[ex tr] eff].
Qed.

(** Inside the cooldown a pass never dispatches. *)
Lemma tick_cooling cfg triangles env bot :
  (time_check env - last_opportunity_time bot <? COOLDOWN)%float = true ->
  (tick cfg triangles env bot).2 = None.
Proof.
  intros Hcool.
  destruct ((tick cfg triangles env bot).2) as [o|] eqn:Hd; [|reflexivity].
  apply tick_dispatch in Hd as (_ & _ & Hfree & _). congruence.
Qed.

Lemma scan_elem cfg env triangles r :
  r ∈ scan cfg env triangles ->
  exists i triangle,
    triangles !! i = Some triangle /\
    r = Simulator.simulate_triangle cfg (books_at env i) (hms_at env i)
          triangle (TRADE_AMOUNT cfg).
Proof.
  unfold scan. intros (i & triangle & -> & Hi)%elem_of_lookup_imap.
  by exists i, triangle.
Qed.

End TickFacts.

(** ** Rounding, threshold and ranking *)

Lemma simulate_some cfg books now triangle amount o :
  Simulator.simulate_triangle cfg books now triangle amount = Some o <->
  exists profit pct,
    Simulator.unrounded books triangle amount = PyFloat.Next (profit, pct) /\
    (pct <? MIN_PROFIT cfg)%float = false /\
    o = mkOpportunity (t_string triangle) (t_pairs triangle)
          (PyFloat.round pct 3) (PyFloat.round profit 2) now.
Proof.
  unfold Simulator.simulate_triangle, Simulator.simulate_body.
  destruct (Simulator.unrounded books triangle amount) as [[profit pct]| |e];
    cbn [mbind PyFloat.Flow_bind].
  - destruct (pct <? MIN_PROFIT cfg)%float eqn:Hlt.
    + split; [discriminate|]. intros (p & q & [= <- <-] & Hq & _). congruence.
    + split.
      * intros [= <-]. by exists profit, pct.
      * intros (p & q & [= <- <-] & _ & ->). reflexivity.
  - split; [discriminate|]. intros (p & q & Hn & _). discriminate.
  - split; [discriminate|]. intros (p & q & Hn & _). discriminate.
Qed.

(** The claim as stated for C3 fails: in one pass both triangles qualify,
    the second has the higher profit percentage as computed (about 1.00647
    against 1.00637), both are reported as 1.006, and the pass dispatches
    the first. *)
Lemma ranking_compares_rounded_profit :
  exists u1 p1 u2 p2 o1 o2,
    Simulator.unrounded RoundedTie.books RoundedTie.one 3%float
      = PyFloat.Next (u1, p1) /\
    Simulator.unrounded RoundedTie.books RoundedTie.two 3%float
      = PyFloat.Next (u2, p2) /\
    (p1 <? p2)%float = true /\
    Bot.scan sample_config RoundedTie.env [RoundedTie.one; RoundedTie.two]
      = [Some o1; Some o2] /\
    o_triangle o1 = "one" /\ o_triangle o2 = "two" /\
    (Bot.tick sample_config [RoundedTie.one; RoundedTie.two]
       RoundedTie.env RoundedTie.bot).2 = Some o1.
Proof.
  exists 0.030191214860699755%float, 1.0063738286899917%float,
         0.030194205869697122%float, 1.0064735289899041%float.
  eexists. eexists.
  repeat split; vm_compute; reflexivity.
Qed.

(** C3 (amended): the threshold test inside [simulate_triangle] compares
    the profit percentage as computed, before rounding, and the figures of
    the returned opportunity are that percentage rounded to 3 decimals and
    the profit rounded to 2; the ranking of a pass compares the rounded
    percentages of the results: the selected result is strictly above every
    earlier result and no later result is above it; and the loop's own
    threshold test before a dispatch compares the rounded percentage too. *)
Theorem threshold_unrounded_ranking_rounded cfg :
  (forall books now triangle amount o,
     Simulator.simulate_triangle cfg books now triangle amount = Some o <->
     exists profit pct,
       Simulator.unrounded books triangle amount = PyFloat.Next (profit, pct) /\
       (pct <? MIN_PROFIT cfg)%float = false /\
       o = mkOpportunity (t_string triangle) (t_pairs triangle)
             (PyFloat.round pct 3) (PyFloat.round profit 2) now) /\
  (forall results o best,
     Bot.select_best results = (Some o, best) ->
     best = profit_pct o /\
     exists earlier later,
       results = earlier ++ Some o :: later /\
       (forall r, Some r ∈ earlier ->
          (profit_pct o <=? profit_pct r)%float = false) /\
       (forall r, Some r ∈ later ->
          (profit_pct o <? profit_pct r)%float = false)) /\
  (forall triangles env bot o,
     (Bot.tick cfg triangles env bot).2 = Some o ->
     PyFloat.ge (profit_pct o) (MIN_PROFIT cfg) = true).
Proof.
  split; [|split].
  - intros. apply simulate_some.
  - intros results o best Hsel.
    destruct (select_best_first_maximum _ _ _ Hsel) as (Hb & _ & H).
    by split.
  - intros triangles env bot o Hd.
    by apply tick_dispatch in Hd as (_ & Hge & _).
Qed.

(** ** At most one dispatch per pass *)

(** C7: a pass hands at most one opportunity to [execute]: either none,
    and the executor is untouched, or one, and the executor is the result of
    a single call of [execute], which counts one more trade; the opportunity
    handed over is the result of [simulate_triangle] on a triangle of the
    list in that pass, and no result of the pass has a higher
    [profit_pct]. *)
Theorem tick_dispatches_best cfg triangles env bot :
  match (Bot.tick cfg triangles env bot).2 with
  | None =>
      Bot.executor (Bot.tick cfg triangles env bot).1 = Bot.executor bot
  | Some o =>
      Bot.executor (Bot.tick cfg triangles env bot).1 =
        (Executor.execute cfg (exec_clock env) (Bot.executor bot) o).1.1 /\
      total_trades (Executor.stats (Bot.executor (Bot.tick cfg triangles env bot).1))
        = total_trades (Executor.stats (Bot.executor bot)) + 1 /\
      (exists i triangle,
         triangles !! i = Some triangle /\
         Simulator.simulate_triangle cfg (books_at env i) (hms_at env i)
           triangle (TRADE_AMOUNT cfg) = Some o) /\
      Some o ∈ Bot.scan cfg env triangles /\
      forall r, Some r ∈ Bot.scan cfg env triangles ->
        (profit_pct o <? profit_pct r)%float = false
  end.
Proof.
  destruct ((Bot.tick cfg triangles env bot).2) as [o|] eqn:Hd.
  - destruct (tick_dispatch _ _ _ _ _ Hd) as (Hsel & _ & _ & ->).
    destruct (select_best_first_maximum _ _ _ Hsel)
      as (_ & _ & earlier & later & Hres & Hearlier & Hlater).
    cbn [Bot.executor]. split; [reflexivity|]. split.
    { unfold Executor.execute.
      destruct (Executor.trade_result cfg (exec_clock env) o) as [tr eff].
      cbn [fst Executor.stats]. unfold Executor.update_stats.
      by destruct (PyFloat.gt (tr_profit_usd tr) 0). }
    assert (Some o ∈ Bot.scan cfg env triangles) as Hin.
    { rewrite Hres. apply elem_of_app. right. by left. }
    split.
    { destruct (scan_elem _ _ _ _ Hin) as (i & triangle & Hi & Hsim).
      by exists i, triangle. }
    split; [exact Hin|].
    intros r Hr. rewrite Hres in Hr.
    apply elem_of_app in Hr as [Hr|Hr].
    + apply not_true_false. intros Hlt.
      apply FloatOrder.ltb_leb in Hlt. by rewrite (Hearlier r Hr) in Hlt.
    + apply elem_of_cons in Hr as [[= <-]|Hr];
        [apply FloatOrder.ltb_irrefl|by apply Hlater].
  - by rewrite (tick_quiet _ _ _ _ Hd).
Qed.

(** ** The cooldown *)

Section Cooldown.
Import Bot.

Lemma dispatched_cons d ds :
  dispatched (d :: ds) =
    match d with Some o => o :: dispatched ds | None => dispatched ds end.
Proof. by destruct d. Qed.

Lemma Forall_readings (P : float -> Prop) envs :
  List.Forall P (readings envs) -> Forall (fun env => P (time_check env)) envs.
Proof.
  induction envs as [|env rest IH]; intros H; [constructor|].
  cbn [readings flat_map app] in H.
  inversion H as [|? ? Hcheck H1]; subst.
  inversion H1 as [|? ? _ H2]; subst.
  constructor; [exact Hcheck|by apply IH].
Qed.

(** While every cooldown test holds the passes back, nothing is
    dispatched. *)
Lemma run_cooling cfg triangles envs : forall bot,
  Forall (fun env =>
    (time_check env - last_opportunity_time bot <? COOLDOWN)%float = true)
    envs ->
  dispatched (run cfg triangles envs bot).2 = [].
Proof.
  induction envs as [|env rest IH]; intros bot Hall; [reflexivity|].
  inversion Hall as [|? ? Hcool Hrest]; subst.
  rewrite run_cons. pose proof (tick_cooling cfg triangles _ _ Hcool) as Hd.
  rewrite dispatched_cons, Hd. apply IH.
  by rewrite (tick_quiet _ _ _ _ Hd).
Qed.

Lemma run_inside_cooldown cfg triangles envs : forall bot,
  inside_cooldown envs ->
  (length (dispatched (run cfg triangles envs bot).2) <= 1)%nat.
Proof.
  induction envs as [|env rest IH]; intros bot Hin; [simpl; lia|].
  unfold inside_cooldown in Hin. cbn [readings flat_map app] in Hin.
  inversion Hin as [|? ? _ H1]; subst.
  inversion H1 as [|? ? Hfire Hrest]; subst.
  rewrite run_cons, dispatched_cons.
  destruct ((tick cfg triangles env bot).2) as [o|] eqn:Hd.
  - destruct (tick_dispatch _ _ _ _ _ Hd) as (_ & _ & _ & Hbot).
    rewrite run_cooling; [simpl; lia|].
    rewrite Hbot. cbn [last_opportunity_time].
    by apply Forall_readings in Hfire.
  - apply IH. exact Hrest.
Qed.

End Cooldown.

(** C6: over passes that span less than the cooldown, at most one
    opportunity is handed to [execute], whatever the passes find; a pass
    dispatches only when the elapsed time since the last trigger is not below
    the cooldown (so it is at least the cooldown, the clock readings being
    numbers), and a pass that dispatches sets the last trigger time to the
    reading of the clock taken at that moment.  The cooldown is the literal
    2 of the loop. *)
Theorem cooldown_debounce cfg triangles :
  (forall envs bot,
     inside_cooldown envs ->
     (length (dispatched (Bot.run cfg triangles envs bot).2) <= 1)%nat) /\
  (forall env bot o,
     (Bot.tick cfg triangles env bot).2 = Some o ->
     let elapsed := (time_check env - Bot.last_opportunity_time bot)%float in
     (elapsed <? Bot.COOLDOWN)%float = false /\
     ((elapsed =? elapsed)%float = true ->
      (Bot.COOLDOWN <=? elapsed)%float = true) /\
     Bot.last_opportunity_time (Bot.tick cfg triangles env bot).1
       = time_fire env).
Proof.
  split.
  - intros envs bot. apply run_inside_cooldown.
  - intros env bot o Hd.
    apply tick_dispatch in Hd as (_ & _ & Hfree & ->).
    split; [exact Hfree|]. split; [|reflexivity].
    intros Hnum. by apply FloatOrder.ltb_false_leb.
Qed.

Lemma cooldown_debounce_witness :
  inside_cooldown three_passes /\
  (length (dispatched
     (Bot.run sample_config [RoundedTie.one; RoundedTie.two] three_passes
        RoundedTie.bot).2) <= 1)%nat.
Proof.
  assert (inside_cooldown three_passes) as Hin.
  { unfold inside_cooldown. repeat constructor. }
  split; [exact Hin|].
  exact (proj1 (cooldown_debounce sample_config
                  [RoundedTie.one; RoundedTie.two]) _ _ Hin).
Defined.

(** In those passes the first dispatches and the other two are held
    back; a fourth pass two seconds later dispatches again. *)
Example three_passes_one_dispatch :
  map (fun d => bool_decide (is_Some d))
    (Bot.run sample_config [RoundedTie.one; RoundedTie.two]
       (three_passes ++ [pass_at 1002.1 1002.2]%float) RoundedTie.bot).2
  = [true; false; false; true].
Proof. vm_compute. reflexivity. Qed.

(** ** The bounded trade history *)

Section History.
Import Executor.

Lemma appendleft_take {A} (x : A) (d : list A) :
  (length d <= MAXLEN)%nat ->
  appendleft MAXLEN x d = take MAXLEN (x :: d).
Proof.
  intros Hlen. unfold appendleft. change (MAXLEN =? 0)%nat with false.
  cbv iota. destruct (length d =? MAXLEN)%nat eqn:Hfull.
  - apply Nat.eqb_eq in Hfull. unfold MAXLEN in *.
    cbn [take]. f_equal. rewrite removelast_firstn_len, Hfull. reflexivity.
  - apply Nat.eqb_neq in Hfull. rewrite take_ge; [reflexivity|].
    cbn [length]. lia.
Qed.

Lemma take_app_take {A} (n : nat) (l m : list A) :
  take n (l ++ take n m) = take n (l ++ m).
Proof.
  rewrite !take_app, take_take. do 2 f_equal. lia.
Qed.

Lemma execute_trades cfg clock self opportunity :
  trades (execute cfg clock self opportunity).1.1 =
    appendleft MAXLEN (trade_result cfg clock opportunity).1 (trades self).
Proof.
  unfold execute. by destruct (trade_result cfg clock opportunity).
Qed.

Lemma execute_total cfg clock self opportunity :
  total_trades (stats (execute cfg clock self opportunity).1.1) =
    total_trades (stats self) + 1.
Proof.
  unfold execute. destruct (trade_result cfg clock opportunity) as [tr eff].
  cbn [fst stats]. unfold update_stats.
  by destruct (PyFloat.gt (tr_profit_usd tr) 0).
Qed.

Lemma execute_all_history cfg calls : forall self,
  (length (trades self) <= MAXLEN)%nat ->
  trades (execute_all cfg calls self) =
    take MAXLEN (recorded cfg calls ++ trades self) /\
  total_trades (stats (execute_all cfg calls self)) =
    total_trades (stats self) + Z.of_nat (length calls).
Proof.
  induction calls as [|[clock opportunity] rest IH]; intros self Hlen.
  - cbn [execute_all recorded map rev app length]. split; [|lia].
    by rewrite take_ge.
  - cbn [execute_all].
    destruct (IH (execute cfg clock self opportunity).1.1) as [Htr Htot].
    { rewrite execute_trades, appendleft_take by exact Hlen.
      rewrite length_take. lia. }
    rewrite Htr, Htot, execute_trades, execute_total.
    rewrite appendleft_take by exact Hlen. split.
    + rewrite take_app_take. unfold recorded. cbn [map rev fst snd].
      by rewrite <- app_assoc.
    + cbn [length]. lia.
Qed.

End History.

(** C8: after any sequence of calls of [execute] on a fresh executor the
    history holds the most recent trades, newest first, cut at 100, so after
    more than 100 calls it holds exactly the 100 most recent; the counter
    [total_trades] equals the number of calls ever made; and every call adds
    exactly one to it. *)
Theorem history_bounded cfg ex calls :
  Executor.trades (execute_all cfg calls (Executor.init ex))
    = take 100 (recorded cfg calls) /\
  ((100 < length calls)%nat ->
     length (Executor.trades (execute_all cfg calls (Executor.init ex))) = 100%nat) /\
  total_trades (Executor.stats (execute_all cfg calls (Executor.init ex)))
    = Z.of_nat (length calls) /\
  (forall clock self opportunity,
     total_trades
       (Executor.stats (Executor.execute cfg clock self opportunity).1.1)
     = total_trades (Executor.stats self) + 1).
Proof.
  destruct (execute_all_history cfg calls (Executor.init ex)) as [Htr Htot].
  { simpl. unfold Executor.MAXLEN. lia. }
  cbn [Executor.init Executor.trades Executor.stats total_trades] in Htr, Htot.
  rewrite app_nil_r in Htr. repeat split.
  - exact Htr.
  - intros Hlong. rewrite Htr, length_take. unfold recorded.
    rewrite length_rev, length_map. unfold Executor.MAXLEN. lia.
  - rewrite Htot. lia.
  - intros. apply execute_total.
Qed.

Example history_after_101_calls :
  let final := execute_all sample_config (numbered_calls 101)
                 (Executor.init (mkExchange (fun _ _ _ => None))) in
  map tr_id (Executor.trades final)
    = map (fun i => "TR" +:+ pretty i) (reverse (seqZ 1 100)) /\
  total_trades (Executor.stats final) = 101.
Proof. vm_compute. split; reflexivity. Qed.

(** ** The live branch of [execute] *)

(** The claim as stated for C9 fails: in live mode, on an exchange that
    rejects every submission, [execute] consults no submission for any of
    the three legs (it prints each leg and pauses), and the trade it records
    has status [executed], not [failed], and no error detail. *)
Lemma live_execute_on_rejecting_exchange :
  (forall pair side amount,
     submitLeg LiveReject.rejecting pair side amount = Some "rejected") /\
  DRY_RUN LiveReject.live = false /\
  exists self tr,
    Executor.execute LiveReject.live LiveReject.clock
      (Executor.init LiveReject.rejecting) LiveReject.opportunity
    = (self, tr,
       [PrintLeg 1 "A1"; Sleep 0.1; PrintLeg 2 "U"; Sleep 0.1;
        PrintLeg 3 "U"; Sleep 0.1]) /\
    tr_status tr = executed /\ tr_status tr ≠ failed /\ tr_error tr = None /\
    Executor.trades self = [tr].
Proof.
  split; [reflexivity|]. split; [reflexivity|].
  eexists. eexists. repeat split; try reflexivity. discriminate.
Qed.

(** C9 (amended): in live mode [execute] goes through the pairs of the
    opportunity in order, printing each leg and pausing 0.1 s after it, and
    makes no use of the exchange; the trade it builds carries the figures of
    the opportunity and the status [executed], without error detail; and in
    every case, live or not, exactly one trade is recorded: it is put at the
    front of the history and counted once. *)
Theorem live_execute_records_executed cfg clock self opportunity :
  (DRY_RUN cfg = false ->
     Executor.trade_result cfg clock opportunity =
       (mkTrade ("TR" +:+ pretty (epoch clock)) (o_triangle opportunity)
                (profit_pct opportunity) (profit_usd opportunity)
                executed None (isoformat clock),
        concat (imap (fun i pair => [PrintLeg (S i) pair; Sleep 0.1%float])
                     (o_pairs opportunity)))) /\
  (forall ex,
     Executor.execute cfg clock
       (Executor.mk ex (Executor.trades self) (Executor.stats self)) opportunity
     = (Executor.mk ex
          (Executor.trades (Executor.execute cfg clock self opportunity).1.1)
          (Executor.stats (Executor.execute cfg clock self opportunity).1.1),
        (Executor.execute cfg clock self opportunity).1.2,
        (Executor.execute cfg clock self opportunity).2)) /\
  (Executor.execute cfg clock self opportunity).1.2
    = (Executor.trade_result cfg clock opportunity).1 /\
  Executor.trades (Executor.execute cfg clock self opportunity).1.1
    = Executor.appendleft Executor.MAXLEN
        (Executor.execute cfg clock self opportunity).1.2
        (Executor.trades self) /\
  total_trades (Executor.stats (Executor.execute cfg clock self opportunity).1.1)
    = total_trades (Executor.stats self) + 1.
Proof.
  split; [|split; [|split; [|split]]].
  - intros Hlive. unfold Executor.trade_result. rewrite Hlive. reflexivity.
  - intros ex. unfold Executor.execute.
    by destruct (Executor.trade_result cfg clock opportunity).
  - unfold Executor.execute.
    by destruct (Executor.trade_result cfg clock opportunity).
  - rewrite execute_trades. unfold Executor.execute.
    by destruct (Executor.trade_result cfg clock opportunity).
  - apply execute_total.
Qed.

(** ** No torn reads *)

Section Atomicity.
Import Concurrent.

Lemma whole_mono w w' symbol value :
  (forall e, e ∈ built w -> e ∈ built w') ->
  whole w symbol value -> whole w' symbol value.
Proof.
  intros Hsub [->|(snap & -> & Hin)]; [by left|].
  right. exists snap. split; [reflexivity|by apply Hsub].
Qed.

Lemma consistent_initial : consistent initial.
Proof.
  split; cbn; try discriminate.
  - intros symbol. left. apply lookup_empty.
  - intros tid symbol value Hin. by apply elem_of_nil in Hin.
Qed.

(** The program counter of [tid'] after [tid] moved to [pc]. *)
Lemma pc_after (f : nat -> Pc) tid pc tid' :
  (<[tid := pc]> f) tid' = if decide (tid = tid') then pc else f tid'.
Proof.
  destruct (decide (tid = tid')) as [->|Hne].
  - apply fn_lookup_insert.
  - by apply fn_lookup_insert_ne.
Qed.

Ltac other_thread tid tid' :=
  rewrite pc_after; destruct (decide (tid = tid')) as [<-|?];
  [try discriminate|].

Lemma consistent_step w w' : consistent w -> step w w' -> consistent w'.
Proof.
  intros [Hstored Hpending Hread Hreturned Hholder] Hstep.
  inversion Hstep as
    [w0 tid symbol b a Hpc | w0 tid symbol b a Hpc Hfree
    | w0 tid symbol b a now Hpc | w0 tid symbol snap Hpc | w0 tid Hpc
    | w0 tid symbol Hpc | w0 tid symbol Hpc Hfree | w0 tid symbol Hpc
    | w0 tid symbol value Hpc]; subst; split; cbn;
    try exact Hstored; try exact Hreturned.
  (* call_update *)
  - intros tid' s snap. other_thread tid tid'. apply Hpending.
  - intros tid' s v. other_thread tid tid'. apply Hread.
  - intros tid'. other_thread tid tid'. apply Hholder.
  (* acquire_update *)
  - intros tid' s snap. other_thread tid tid'. apply Hpending.
  - intros tid' s v. other_thread tid tid'. apply Hread.
  - intros tid'. other_thread tid tid'; [reflexivity|].
    intros Hin. apply Hholder in Hin. congruence.
  (* build_update *)
  - intros s. eapply whole_mono; [|apply Hstored]. intros e He. by right.
  - intros tid' s snap. other_thread tid tid'.
    + intros [= <- <-]. by left.
    + intros H. right. by apply (Hpending tid').
  - intros tid' s v. other_thread tid tid'. intros H.
    eapply whole_mono; [|exact (Hread _ _ _ H)]. intros e He. by right.
  - intros tid' s v H.
    eapply whole_mono; [|exact (Hreturned _ _ _ H)]. intros e He. by right.
  - intros tid'. other_thread tid tid'; [|apply Hholder].
    intros _. apply Hholder. by rewrite Hpc.
  (* store_update *)
  - intros s. rewrite lookup_insert.
    destruct (decide (symbol = s)) as [<-|?]; [|apply Hstored].
    right. exists snap. split; [reflexivity|]. by apply (Hpending tid).
  - intros tid' s sn. other_thread tid tid'. apply Hpending.
  - intros tid' s v. other_thread tid tid'. apply Hread.
  - intros tid'. other_thread tid tid'; [|apply Hholder].
    intros _. apply Hholder. by rewrite Hpc.
  (* release_update *)
  - intros tid' s snap. other_thread tid tid'. apply Hpending.
  - intros tid' s v. other_thread tid tid'. apply Hread.
  - intros tid'. other_thread tid tid'. intros Hin.
    pose proof (Hholder tid' Hin) as H1.
    assert (lock w = Some tid) as H2 by (apply Hholder; by rewrite Hpc).
    congruence.
  (* call_get *)
  - intros tid' s snap. other_thread tid tid'. apply Hpending.
  - intros tid' s v. other_thread tid tid'. apply Hread.
  - intros tid'. other_thread tid tid'. apply Hholder.
  (* acquire_get *)
  - intros tid' s snap. other_thread tid tid'. apply Hpending.
  - intros tid' s v. other_thread tid tid'. apply Hread.
  - intros tid'. other_thread tid tid'; [reflexivity|].
    intros Hin. apply Hholder in Hin. congruence.
  (* read_get *)
  - intros tid' s snap. other_thread tid tid'. apply Hpending.
  - intros tid' s v. other_thread tid tid'; [|apply Hread].
    intros [= <- <-]. apply Hstored.
  - intros tid'. other_thread tid tid'; [|apply Hholder].
    intros _. apply Hholder. by rewrite Hpc.
  (* release_get *)
  - intros tid' s snap. other_thread tid tid'. apply Hpending.
  - intros tid' s v. other_thread tid tid'. apply Hread.
  - intros tid' s v [Heq|Hin]%elem_of_cons; [|by apply (Hreturned tid')].
    injection Heq as -> -> ->. by apply (Hread tid).
  - intros tid'. other_thread tid tid'. intros Hin.
    pose proof (Hholder tid' Hin) as H1.
    assert (lock w = Some tid) as H2 by (apply Hholder; by rewrite Hpc).
    congruence.
Qed.

Lemma reachable_consistent w : reachable w -> consistent w.
Proof.
  unfold reachable. intros Hreach.
  eapply (rtc_ind_r consistent initial);
    [apply consistent_initial| |exact Hreach].
  intros y z _ Hstep IH. by eapply consistent_step.
Qed.











End Atomicity.




(** * Further properties of the program *)

(** ** The triangles that [find_triangles] returns *)

Section Enumeration.
Import Scanner.

Lemma elem_of_slice_to {A} (n : Z) (l : list A) x : x ∈ slice_to n l -> x ∈ l.
Proof.
  unfold slice_to. destruct (0 <=? n); intros Hin;
    exact (subseteq_take _ _ _ Hin).
Qed.

Lemma elem_of_flat_map {A B} (f : A -> list B) (l : list A) y :
  y ∈ flat_map f l <-> exists x, x ∈ l /\ y ∈ f x.
Proof.
  rewrite list_elem_of_In, in_flat_map. split; intros (x & Hx & Hy); exists x.
  - by rewrite !list_elem_of_In.
  - by rewrite <- !list_elem_of_In.
Qed.

(** A returned triangle, read back as the three entries that the loops
    went through. *)
Lemma find_triangles_elem cfg markets t :
  t ∈ find_triangles cfg markets ->
  exists b c sab sbc sca dab dbc dca,
    t = mkTriangle ["USDT"; b; c] [sab; sbc; sca] [dab; dbc; dca]
          (triangle_string "USDT" b c) /\
    c ≠ "USDT" /\
    (b, sab, dab) ∈ adj_get (build_adjacency markets) "USDT" /\
    (c, sbc, dbc) ∈ adj_get (build_adjacency markets) b /\
    ("USDT", sca, dca) ∈ adj_get (build_adjacency markets) c.
Proof.
  unfold find_triangles.
  destruct (build_adjacency markets !! "USDT") as [first|] eqn:Hfirst;
    [|intros H; by apply elem_of_nil in H].
  intros Hin%elem_of_slice_to. unfold enumerate in Hin.
  apply elem_of_flat_map in Hin as ([[b sab] dab] & Hb & Hin).
  unfold second_legs in Hin.
  apply elem_of_flat_map in Hin as ([[c sbc] dbc] & Hc & Hin).
  destruct (bool_decide (c = "USDT")) eqn:Hhub;
    [by apply elem_of_nil in Hin|].
  apply bool_decide_eq_false in Hhub.
  unfold close_triangles in Hin.
  apply elem_of_flat_map in Hin as ([[back sca] dca] & Hback & Hin).
  destruct (bool_decide (back = "USDT")) eqn:Hclose;
    [|by apply elem_of_nil in Hin].
  apply bool_decide_eq_true in Hclose. subst back.
  apply list_elem_of_singleton in Hin.
  exists b, c, sab, sbc, sca, dab, dbc, dca.
  repeat split; try assumption.
  unfold adj_get. by rewrite Hfirst.
Qed.

Lemma hub_bound_append markets adj k n s d :
  hub_bound markets adj ->
  (k ≠ "USDT" -> n = "USDT") ->
  (k = "USDT" -> n = "USDT" -> self_quoted markets s) ->
  hub_bound markets (adj_append k (n, s, d) adj).
Proof.
  intros Hadj Hleaf Hhub k' n' s' d'. rewrite adj_get_append.
  destruct (decide (k = k')) as [<-|]; [|apply Hadj].
  rewrite elem_of_app, list_elem_of_singleton.
  intros [Hold|[= -> -> ->]]; [exact (Hadj _ _ _ _ Hold)|auto].
Qed.

Lemma hub_bound_add_market markets adj symbol market :
  (symbol, market) ∈ markets ->
  hub_bound markets adj -> hub_bound markets (add_market adj (symbol, market)).
Proof.
  intros Hin Hadj. unfold add_market.
  destruct (negb _); [exact Hadj|].
  destruct (bool_decide (m_quote market ≠ "USDT") &&
            bool_decide (m_base market ≠ "USDT")) eqn:Hskip; [exact Hadj|].
  apply andb_false_iff in Hskip.
  rewrite !bool_decide_eq_false in Hskip.
  assert (m_quote market = "USDT" \/ m_base market = "USDT") as Hhub.
  { destruct Hskip as [H|H]; [left|right].
    - destruct (decide (m_quote market = "USDT")); tauto.
    - destruct (decide (m_base market = "USDT")); tauto. }
  apply hub_bound_append; [apply hub_bound_append; [exact Hadj|..]|..].
  - intros Hk. destruct Hhub; congruence.
  - intros Hb Hq. by exists market.
  - intros Hk. destruct Hhub; congruence.
  - intros Hq Hb. by exists market.
Qed.

Lemma hub_bound_fold markets rest : forall adj,
  (forall item, item ∈ rest -> item ∈ markets) ->
  hub_bound markets adj -> hub_bound markets (fold_left add_market rest adj).
Proof.
  induction rest as [|[symbol market] rest IH]; intros adj Hsub Hadj;
    [exact Hadj|].
  cbn [fold_left]. apply IH.
  - intros item Hitem. apply Hsub. by right.
  - apply hub_bound_add_market; [|exact Hadj]. apply Hsub. by left.
Qed.

Lemma hub_bound_build markets : hub_bound markets (build_adjacency markets).
Proof.
  apply hub_bound_fold; [auto|].
  intros k n s d. unfold adj_get. rewrite lookup_empty. inversion 1.
Qed.

End Enumeration.

(** X1: every triangle returned by [find_triangles] has the path
    [USDT, b, c] with [c] other than the hub, three pairs, three directions
    and the display string of that path, and its legs are entries of the
    adjacency built from the same markets: the first under the hub, the
    second under [b], the third under [c] and leading back to the hub. *)
Theorem find_triangles_chain cfg (markets : list (string * Market)) :
  Forall (fun t =>
    exists b c sab sbc sca dab dbc dca,
      t = mkTriangle ["USDT"; b; c] [sab; sbc; sca] [dab; dbc; dca]
            (Scanner.triangle_string "USDT" b c) /\
      c ≠ "USDT" /\
      (b, sab, dab) ∈ Scanner.adj_get (Scanner.build_adjacency markets) "USDT" /\
      (c, sbc, dbc) ∈ Scanner.adj_get (Scanner.build_adjacency markets) b /\
      ("USDT", sca, dca) ∈ Scanner.adj_get (Scanner.build_adjacency markets) c)
    (Scanner.find_triangles cfg markets).
Proof.
  apply Forall_forall. intros t Ht%list_elem_of_In.
  exact (find_triangles_elem _ _ _ Ht).
Qed.

(** X2: every triangle returned by [find_triangles] passes the hub twice:
    its second asset is USDT itself, and its first pair is the symbol of a
    market whose base and quote are both USDT.  No returned triangle goes
    through two assets other than the hub. *)
Theorem find_triangles_through_hub_twice cfg (markets : list (string * Market)) :
  Forall (fun t =>
    exists c first_pair,
      t_path t = ["USDT"; "USDT"; c] /\ c ≠ "USDT" /\
      head (t_pairs t) = Some first_pair /\
      self_quoted markets first_pair)
    (Scanner.find_triangles cfg markets).
Proof.
  apply Forall_forall. intros t Ht%list_elem_of_In.
  destruct (find_triangles_elem _ _ _ Ht)
    as (b & c & sab & sbc & sca & dab & dbc & dca & -> & Hc & Hb & Hbc & _).
  pose proof (hub_bound_build markets) as Hbound.
  assert (b = "USDT") as ->.
  { destruct (decide (b = "USDT")) as [|Hne]; [assumption|].
    destruct (Hbound _ _ _ _ Hbc) as [Hleaf _]. by destruct Hc; apply Hleaf. }
  exists c, sab. repeat split; try assumption.
  by apply (Hbound "USDT" "USDT" sab dab).
Qed.

(** The list of X1 and X2 is not always empty. *)
Example find_triangles_looped :
  map t_path (Scanner.find_triangles (capped 500) looped_markets) =
    [["USDT"; "USDT"; "BTC"]; ["USDT"; "USDT"; "ETH"];
     ["USDT"; "USDT"; "BTC"]; ["USDT"; "USDT"; "ETH"]].
Proof. vm_compute. reflexivity. Qed.

(** X3: with a cap that is not negative, [find_triangles] returns at most
    [MAX_TRIANGLES] triangles, and what it returns under a cap is the
    beginning of what it returns under any larger cap: the cut keeps the
    first triangles in enumeration order. *)
Theorem find_triangles_capped cfg (markets : list (string * Market)) :
  0 <= MAX_TRIANGLES cfg ->
  (length (Scanner.find_triangles cfg markets)
     <= Z.to_nat (MAX_TRIANGLES cfg))%nat /\
  forall cfg',
    MAX_TRIANGLES cfg <= MAX_TRIANGLES cfg' ->
    Scanner.find_triangles cfg markets
      `prefix_of` Scanner.find_triangles cfg' markets.
Proof.
  intros Hcap. unfold Scanner.find_triangles, slice_to.
  destruct (Scanner.build_adjacency markets !! "USDT") as [first|];
    [|split; [simpl; lia|intros; reflexivity]].
  rewrite (proj2 (Z.leb_le 0 _) Hcap). split.
  - rewrite length_take. lia.
  - intros cfg' Hle.
    rewrite (proj2 (Z.leb_le 0 (MAX_TRIANGLES cfg')) ltac:(lia)).
    replace (Z.to_nat (MAX_TRIANGLES cfg))
      with (Nat.min (Z.to_nat (MAX_TRIANGLES cfg))
                    (Z.to_nat (MAX_TRIANGLES cfg')))
      by lia.
    rewrite <- take_take. apply prefix_take.
Qed.

Lemma find_triangles_capped_witness :
  (length (Scanner.find_triangles (capped 3) looped_markets) <= 3)%nat /\
  Scanner.find_triangles (capped 3) looped_markets
    `prefix_of` Scanner.find_triangles (capped 500) looped_markets.
Proof.
  destruct (find_triangles_capped (capped 3) looped_markets) as [Hlen Hpre].
  { simpl. lia. }
  split; [exact Hlen|]. apply Hpre. simpl. lia.
Defined.

(** The cap of the witness cuts: three of four triangles are kept. *)
Example find_triangles_cut :
  length (Scanner.find_triangles (capped 3) looped_markets) = 3%nat /\
  length (Scanner.find_triangles (capped 500) looped_markets) = 4%nat.
Proof. vm_compute. split; reflexivity. Qed.

(** ** The size of the adjacency *)

Section Degree.
Import Scanner.

Lemma adj_append_length adj k' e k :
  length (adj_get (adj_append k' e adj) k) =
    (length (adj_get adj k) + if bool_decide (k' = k) then 1 else 0)%nat.
Proof.
  rewrite adj_get_append. destruct (decide (k' = k)) as [->|Hne].
  - rewrite bool_decide_eq_true_2 by reflexivity. rewrite length_app. simpl. lia.
  - rewrite bool_decide_eq_false_2 by assumption. lia.
Qed.

Lemma add_market_length adj item k :
  length (adj_get (add_market adj item) k) =
    (length (adj_get adj k)
     + length (List.filter (as_base k) [item])
     + length (List.filter (as_quote k) [item]))%nat.
Proof.
  destruct item as [symbol market].
  unfold add_market, as_base, as_quote, hub_active. cbn [List.filter fst snd].
  destruct (active_or_true (m_active market)); cbn [negb andb];
    [|cbn [length]; lia].
  destruct (bool_decide (m_quote market ≠ "USDT") &&
            bool_decide (m_base market ≠ "USDT")); cbn [negb andb];
    [cbn [length]; lia|].
  rewrite !adj_append_length.
  destruct (bool_decide (m_base market = k)),
           (bool_decide (m_quote market = k)); cbn [length]; lia.
Qed.

Lemma fold_add_market_length rest : forall adj k,
  length (adj_get (fold_left add_market rest adj) k) =
    (length (adj_get adj k)
     + length (List.filter (as_base k) rest)
     + length (List.filter (as_quote k) rest))%nat.
Proof.
  induction rest as [|item rest IH]; intros adj k; [cbn; lia|].
  cbn [fold_left]. rewrite IH, add_market_length.
  cbn [List.filter]. destruct (as_base k item), (as_quote k item);
    cbn [length]; lia.
Qed.

End Degree.

(** X4: under every asset the adjacency holds one entry for each active
    market touching the hub that has the asset as base, and one for each
    that has it as quote; inactive markets and markets that do not touch
    USDT add nothing. *)
Theorem build_adjacency_degree (markets : list (string * Market)) k :
  length (Scanner.adj_get (Scanner.build_adjacency markets) k) =
    (length (List.filter (as_base k) markets)
     + length (List.filter (as_quote k) markets))%nat.
Proof.
  unfold Scanner.build_adjacency. rewrite fold_add_market_length.
  unfold Scanner.adj_get at 1. rewrite lookup_empty. reflexivity.
Qed.

(** ** The symbols that are polled *)

Section Symbols.
Import Startup.

Lemma prefix_app sub : forall s,
  String.prefix sub s = true <-> exists post, s = sub +:+ post.
Proof.
  induction sub as [|a sub IH]; intros s.
  - split; [intros _; by exists s|intros _; by destruct s].
  - destruct s as [|b s]; cbn [String.prefix].
    + split; [discriminate|intros [post Hpost]; discriminate].
    + destruct (Ascii.ascii_dec a b) as [->|Hne].
      * rewrite IH. split; intros [post Hpost]; exists post.
        -- cbn. by rewrite Hpost.
        -- cbn in Hpost. by injection Hpost.
      * split; [discriminate|]. intros [post Hpost]. cbn in Hpost.
        injection Hpost as Hab _. by destruct Hne.
Qed.

(** [contains] is the substring test. *)
Lemma contains_spec sub s :
  contains sub s = true <-> exists pre post, s = pre +:+ sub +:+ post.
Proof.
  split.
  - induction s as [|c s IH]; cbn [contains]; intros H.
    + rewrite orb_false_r in H. apply prefix_app in H as [post Hpost].
      by exists "", post.
    + apply orb_true_iff in H as [H|H].
      * apply prefix_app in H as [post Hpost]. by exists "", post.
      * destruct (IH H) as (pre & post & ->). by exists (String c pre), post.
  - intros (pre & post & ->). induction pre as [|c pre IH].
    + assert (String.prefix sub ("" +:+ sub +:+ post) = true) as Hp
        by (apply prefix_app; by exists post).
      destruct ("" +:+ sub +:+ post); cbn [contains]; by rewrite Hp.
    + change (String c pre +:+ sub +:+ post)
        with (String c (pre +:+ sub +:+ post)).
      cbn [contains]. rewrite IH. apply orb_true_r.
Qed.

Lemma elem_of_filter_polled markets symbol :
  symbol ∈ map fst (List.filter polled markets) <->
  exists market, (symbol, market) ∈ markets /\ polled (symbol, market) = true.
Proof.
  rewrite list_elem_of_In, in_map_iff. split.
  - intros ([s m] & <- & [Hin Hp]%filter_In). exists m.
    by rewrite list_elem_of_In.
  - intros (m & Hin & Hp). exists (symbol, m). split; [reflexivity|].
    apply filter_In. by rewrite <- list_elem_of_In.
Qed.

End Symbols.

(** X5: every symbol that [main] hands to the updater is the key of a
    market whose ['active'] entry is true and has USDT somewhere in its
    name; with a cap that is not negative there are at most [MAX_SYMBOLS] of
    them; and when the cap is not below the number of markets, every such
    key is among them. *)
Theorem select_symbols_sound cfg (markets : list (string * Market)) :
  Forall (fun symbol =>
    exists market pre post,
      (symbol, market) ∈ markets /\
      m_active market = ActiveBool true /\
      symbol = pre +:+ "USDT" +:+ post)
    (Startup.select_symbols cfg markets) /\
  (0 <= MAX_SYMBOLS cfg ->
     (length (Startup.select_symbols cfg markets)
        <= Z.to_nat (MAX_SYMBOLS cfg))%nat) /\
  (Z.of_nat (length markets) <= MAX_SYMBOLS cfg ->
     forall symbol market pre post,
       (symbol, market) ∈ markets ->
       m_active market = ActiveBool true ->
       symbol = pre +:+ "USDT" +:+ post ->
       symbol ∈ Startup.select_symbols cfg markets).
Proof.
  split; [|split].
  - apply Forall_forall.
    intros symbol Hin%list_elem_of_In%elem_of_slice_to.
    apply elem_of_filter_polled in Hin as (market & Hin & Hp).
    unfold Startup.polled in Hp. cbn [fst snd] in Hp.
    apply andb_true_iff in Hp as [Hactive Hsub].
    apply contains_spec in Hsub as (pre & post & Hsub).
    exists market, pre, post. repeat split; try assumption.
    destruct (m_active market) as [| |[|]]; try discriminate. reflexivity.
  - intros Hcap. unfold Startup.select_symbols, slice_to.
    rewrite (proj2 (Z.leb_le 0 _) Hcap), length_take. lia.
  - intros Hcap symbol market pre post Hin Hactive Hsub.
    unfold Startup.select_symbols, slice_to.
    rewrite (proj2 (Z.leb_le 0 _)) by lia.
    rewrite take_ge.
    + apply elem_of_filter_polled. exists market. split; [exact Hin|].
      unfold Startup.polled. cbn [fst snd]. rewrite Hactive. cbn.
      apply contains_spec. by exists pre, post.
    + rewrite length_map.
      pose proof (filter_length_le Startup.polled markets). lia.
Qed.

(** ** The order-book updater *)

Section Updater.
Import Poller.

Lemma poll_symbol_other books symbol env s :
  symbol ≠ s -> poll_symbol books symbol env !! s = books !! s.
Proof.
  intros Hne. unfold poll_symbol, OrderBook.update.
  destruct (fetched env); [by rewrite lookup_insert_ne|reflexivity].
Qed.

Lemma poll_from_other symbols env s : forall i books,
  s ∉ symbols -> poll_from i symbols env books !! s = books !! s.
Proof.
  induction symbols as [|symbol rest IH]; intros i books Hs; [reflexivity|].
  cbn [poll_from]. apply not_elem_of_cons in Hs as [Hne Hrest].
  rewrite IH by exact Hrest. by apply poll_symbol_other.
Qed.

Lemma poll_rounds_other symbols envs s : forall books,
  s ∉ symbols -> poll_rounds symbols envs books !! s = books !! s.
Proof.
  induction envs as [|env rest IH]; intros books Hs; [reflexivity|].
  cbn [poll_rounds]. rewrite IH by exact Hs. by apply poll_from_other.
Qed.

Lemma poll_symbol_shallow books symbol env :
  shallow books -> shallow (poll_symbol books symbol env).
Proof.
  intros Hbooks. unfold poll_symbol, OrderBook.update.
  destruct (fetched env) as [b a|e]; [|exact Hbooks].
  intros s snap. rewrite lookup_insert.
  destruct (decide (symbol = s)) as [->|Hne]; [|apply Hbooks].
  intros [= <-]. cbn [bids asks]. rewrite !length_take. lia.
Qed.

Lemma poll_from_shallow symbols env : forall i books,
  shallow books -> shallow (poll_from i symbols env books).
Proof.
  induction symbols as [|symbol rest IH]; intros i books Hbooks;
    [exact Hbooks|].
  cbn [poll_from]. apply IH. by apply poll_symbol_shallow.
Qed.

Lemma poll_from_all_raised symbols env : forall i books,
  (forall j, exists e, fetched (env j) = FetchRaised e) ->
  poll_from i symbols env books = books.
Proof.
  induction symbols as [|symbol rest IH]; intros i books Hraised;
    [reflexivity|].
  cbn [poll_from]. rewrite IH by exact Hraised.
  unfold poll_symbol. destruct (Hraised i) as [e ->]. reflexivity.
Qed.

End Updater.

(** X6: the updater keeps every stored book at ten levels a side at most:
    if the store holds no deeper book before, it holds none after any number
    of rounds, whatever the exchange returns. *)
Theorem updater_keeps_books_shallow symbols envs books :
  shallow books -> shallow (Poller.poll_rounds symbols envs books).
Proof.
  revert books. induction envs as [|env rest IH]; intros books Hbooks;
    [exact Hbooks|].
  cbn [Poller.poll_rounds]. apply IH. by apply poll_from_shallow.
Qed.

Lemma updater_keeps_books_shallow_witness :
  shallow (Poller.poll_rounds ["BTC/USDT"] [deep_fetch] OrderBook.empty) /\
  (bids <$> Poller.poll_rounds ["BTC/USDT"] [deep_fetch] OrderBook.empty
            !! "BTC/USDT") = Some (replicate 10 (20000, 1)%float).
Proof.
  split; [|reflexivity].
  apply (updater_keeps_books_shallow ["BTC/USDT"] [deep_fetch] OrderBook.empty).
  intros symbol snap. unfold OrderBook.empty. rewrite lookup_empty.
  discriminate.
Defined.

(** X7: the updater writes under the symbols of its list only, so the
    entry of any other symbol is after any number of rounds what it was
    before; and rounds in which every fetch raises leave the whole store as
    it was: a book that cannot be refreshed stays in place with its old
    timestamp. *)
Theorem updater_leaves_the_rest symbols envs books :
  (forall symbol,
     symbol ∉ symbols ->
     Poller.poll_rounds symbols envs books !! symbol = books !! symbol) /\
  ((forall env j, env ∈ envs -> exists e, fetched (env j) = FetchRaised e) ->
   Poller.poll_rounds symbols envs books = books).
Proof.
  split.
  - intros symbol Hs. by apply poll_rounds_other.
  - revert books. induction envs as [|env rest IH]; intros books Hraised;
      [reflexivity|].
    cbn [Poller.poll_rounds]. rewrite IH.
    + apply poll_from_all_raised. intros j. apply Hraised. by left.
    + intros env' j Hin. apply Hraised. by right.
Qed.

(** X8: a triangle with a leg whose pair is not in the list of the updater
    is never reported: on every store that the updater builds from the empty
    one, [simulate_triangle] returns [None]. *)
Theorem unpolled_leg_never_reported
    cfg symbols envs now triangle amount before pair direction after :
  zip (t_pairs triangle) (t_directions triangle)
    = before ++ (pair, direction) :: after ->
  pair ∉ symbols ->
  Simulator.simulate_triangle cfg
    (Poller.poll_rounds symbols envs OrderBook.empty) now triangle amount
  = None.
Proof.
  intros Hlegs Hpair. apply simulate_legs_not_next. intros c. rewrite Hlegs.
  apply legs_missing_book. unfold OrderBook.get.
  rewrite poll_rounds_other by exact Hpair. apply lookup_empty.
Qed.

Lemma unpolled_leg_never_reported_witness :
  Simulator.simulate_triangle sample_config
    (Poller.poll_rounds ["LEG1"; "LEG2"] [deep_fetch] OrderBook.empty)
    "12:00:00" WorkedExample.triangle 3%float = None.
Proof.
  apply (unpolled_leg_never_reported sample_config ["LEG1"; "LEG2"]
           [deep_fetch] "12:00:00" WorkedExample.triangle 3%float
           [("LEG1", buy); ("LEG2", buy)] "LEG3" sell []).
  - reflexivity.
  - intros Hin. repeat (apply elem_of_cons in Hin as [Hin|Hin];
                        [discriminate Hin|]).
    by apply elem_of_nil in Hin.
Defined.

(** ** The entries of the adjacency *)

Section Entries.
Import Scanner.

Lemma adj_append_elem adj k' e' k e :
  e ∈ adj_get (adj_append k' e' adj) k <->
  e ∈ adj_get adj k \/ (k' = k /\ e = e').
Proof.
  rewrite adj_get_append. destruct (decide (k' = k)) as [->|Hne].
  - rewrite elem_of_app, list_elem_of_singleton. intuition.
  - intuition.
Qed.

Lemma add_market_entries adj item k e :
  e ∈ adj_get (add_market adj item) k <->
  e ∈ adj_get adj k \/ entry_of k e item.
Proof.
  destruct item as [symbol market].
  unfold add_market, entry_of, hub_active. cbn [fst snd].
  destruct (active_or_true (m_active market)); cbn [negb andb];
    [|intuition discriminate].
  destruct (bool_decide (m_quote market ≠ "USDT") &&
            bool_decide (m_base market ≠ "USDT")); cbn [negb];
    [intuition discriminate|].
  rewrite !adj_append_elem. intuition (subst; auto).
Qed.

Lemma fold_add_market_entries rest : forall adj k e,
  e ∈ adj_get (fold_left add_market rest adj) k <->
  e ∈ adj_get adj k \/ exists item, item ∈ rest /\ entry_of k e item.
Proof.
  induction rest as [|item rest IH]; intros adj k e; cbn [fold_left].
  - split; [by left|]. intros [H|(item & Hin & _)]; [exact H|].
    by apply elem_of_nil in Hin.
  - rewrite IH, add_market_entries. split.
    + intros [[H|H]|(item' & Hin & H)]; [by left|right..].
      * exists item. split; [by left|exact H].
      * exists item'. split; [by right|exact H].
    + intros [H|(item' & [->|Hin]%elem_of_cons & H)].
      * left. by left.
      * left. by right.
      * right. by exists item'.
Qed.

End Entries.

Lemma build_entries (markets : list (string * Market)) k e :
  e ∈ Scanner.adj_get (Scanner.build_adjacency markets) k <->
  exists item, item ∈ markets /\ entry_of k e item.
Proof.
  unfold Scanner.build_adjacency. rewrite fold_add_market_entries.
  split; [|by right]. intros [H|H]; [|exact H].
  unfold Scanner.adj_get in H. rewrite lookup_empty in H.
  by apply elem_of_nil in H.
Qed.

(** In a list with distinct keys a key has one value. *)
Lemma unique_key {A} (l : list (string * A)) k x y :
  NoDup (map fst l) -> (k, x) ∈ l -> (k, y) ∈ l -> x = y.
Proof.
  induction l as [|[k' z] l IH]; intros Hkeys Hx Hy;
    [by apply elem_of_nil in Hx|].
  cbn [map fst] in Hkeys. inversion Hkeys as [|? ? Hfresh Hrest]; subst.
  assert (forall v, (k', v) ∈ l -> False) as Hnot.
  { intros v Hv. apply Hfresh. change (map fst l) with (fst <$> l).
    apply list_elem_of_fmap. by exists (k', v). }
  apply elem_of_cons in Hx as [Hx|Hx]; apply elem_of_cons in Hy as [Hy|Hy].
  - congruence.
  - injection Hx as -> ->. by destruct (Hnot y).
  - injection Hy as -> ->. by destruct (Hnot x).
  - by apply IH.
Qed.

(** X9: the adjacency built from a market list holds exactly the entries
    of its active markets that touch the hub: an entry is under a key if and
    only if some such market has the key as base and the entry is
    [(quote, symbol, buy)], or has the key as quote and the entry is
    [(base, symbol, sell)]. *)
Theorem build_adjacency_entries (markets : list (string * Market)) k e :
  e ∈ Scanner.adj_get (Scanner.build_adjacency markets) k <->
  exists item, item ∈ markets /\ entry_of k e item.
Proof. apply build_entries. Qed.

(** X10: a market that touches the hub and has no ['active'] entry is
    treated in two ways: [build_adjacency] takes it as active and puts its
    entries into the graph, while the symbol list of [main] leaves it out
    (keys being distinct), so that the updater never stores a book for
    it. *)
Theorem market_without_active_entry
    cfg (markets : list (string * Market)) symbol market :
  NoDup (map fst markets) ->
  (symbol, market) ∈ markets ->
  m_active market = ActiveMissing ->
  m_base market = "USDT" \/ m_quote market = "USDT" ->
  (m_quote market, symbol, buy)
    ∈ Scanner.adj_get (Scanner.build_adjacency markets) (m_base market) /\
  (m_base market, symbol, sell)
    ∈ Scanner.adj_get (Scanner.build_adjacency markets) (m_quote market) /\
  (symbol ∉ Startup.select_symbols cfg markets) /\
  forall envs,
    OrderBook.get symbol
      (Poller.poll_rounds (Startup.select_symbols cfg markets) envs
         OrderBook.empty) = None.
Proof.
  intros Hkeys Hin Hactive Hhub.
  assert (hub_active market = true) as Hkept.
  { unfold hub_active. rewrite Hactive. cbn [active_or_true andb].
    destruct Hhub as [H|H]; rewrite H; cbn; [by rewrite andb_false_r|done]. }
  assert (symbol ∉ Startup.select_symbols cfg markets) as Hout.
  { intros Hsel%elem_of_slice_to.
    apply elem_of_filter_polled in Hsel as (market' & Hin' & Hp).
    rewrite (unique_key markets symbol market' market Hkeys Hin' Hin) in Hp.
    unfold Startup.polled in Hp. cbn [fst snd] in Hp.
    by rewrite Hactive in Hp. }
  repeat split.
  - apply build_entries. exists (symbol, market). split; [exact Hin|].
    split; [exact Hkept|]. left. by split.
  - apply build_entries. exists (symbol, market). split; [exact Hin|].
    split; [exact Hkept|]. right. by split.
  - exact Hout.
  - intros envs. unfold OrderBook.get.
    rewrite poll_rounds_other by exact Hout. apply lookup_empty.
Qed.

Lemma market_without_active_entry_witness :
  ("USDT", "ETH/USDT", buy)
    ∈ Scanner.adj_get (Scanner.build_adjacency sample_markets) "ETH" /\
  ("ETH/USDT" ∉ Startup.select_symbols sample_config sample_markets).
Proof.
  destruct (market_without_active_entry sample_config sample_markets
              "ETH/USDT" (mkMarket ActiveMissing "ETH" "USDT"))
    as (Hgraph & _ & Hlist & _).
  - apply (bool_decide_unpack _). vm_compute. exact I.
  - unfold sample_markets. right. by left.
  - reflexivity.
  - right. reflexivity.
  - split; [exact Hgraph|exact Hlist].
Defined.

(** ** Edge cases of the simulation *)

Section SimulationEdges.
Import PyFloat Simulator.

Lemma leg_same_depth books books' current pd :
  same_depth books books' -> leg books current pd = leg books' current pd.
Proof.
  intros Hsame. unfold leg, OrderBook.get. specialize (Hsame pd.1).
  destruct (books !! pd.1) as [ob|], (books' !! pd.1) as [ob'|];
    try discriminate; [|reflexivity].
  injection Hsame as Hb Ha. unfold walk. by rewrite Hb, Ha.
Qed.

Lemma legs_same_depth books books' l : forall current,
  same_depth books books' -> legs books current l = legs books' current l.
Proof.
  induction l as [|pd rest IH]; intros current Hsame; [reflexivity|].
  cbn [legs]. rewrite (leg_same_depth _ _ _ _ Hsame).
  destruct (leg books' current pd) as [c| |e]; try reflexivity.
  by apply IH.
Qed.

End SimulationEdges.

(** X11: a start amount of zero (of either sign) is never reported: the
    profit percentage divides by the amount, the division raises, and
    [simulate_triangle] returns [None] whatever the books hold. *)
Theorem simulate_zero_amount cfg books now triangle amount :
  (amount =? 0)%float = true ->
  Simulator.simulate_triangle cfg books now triangle amount = None.
Proof.
  intros Hzero. unfold Simulator.simulate_triangle, Simulator.simulate_body,
    Simulator.unrounded.
  destruct (Simulator.legs books amount _) as [c| |e]; try reflexivity.
  cbn [mbind PyFloat.Flow_bind]. unfold Simulator.profit_of, PyFloat.truediv.
  rewrite Hzero. reflexivity.
Qed.

Lemma simulate_zero_amount_witness :
  Simulator.simulate_triangle sample_config WorkedExample.books "12:00:00"
    WorkedExample.triangle (-0)%float = None.
Proof.
  apply (simulate_zero_amount sample_config WorkedExample.books "12:00:00"
           WorkedExample.triangle (-0)%float).
  reflexivity.
Defined.

(** X12: the simulation never looks at the timestamp of a book: on two
    stores that hold the same bid and ask levels under every symbol
    [simulate_triangle] returns the same result, however old either store
    is. *)
Theorem simulate_ignores_timestamps cfg books books' now triangle amount :
  same_depth books books' ->
  Simulator.simulate_triangle cfg books now triangle amount =
  Simulator.simulate_triangle cfg books' now triangle amount.
Proof.
  intros Hsame. unfold Simulator.simulate_triangle, Simulator.simulate_body,
    Simulator.unrounded.
  by rewrite (legs_same_depth _ _ _ _ Hsame).
Qed.

Lemma simulate_ignores_timestamps_witness :
  Simulator.simulate_triangle sample_config WorkedExample.books "12:00:00"
    WorkedExample.triangle 3%float =
  Simulator.simulate_triangle sample_config later_books "12:00:00"
    WorkedExample.triangle 3%float.
Proof.
  apply (simulate_ignores_timestamps sample_config WorkedExample.books
           later_books).
  intros symbol. unfold WorkedExample.books, later_books, OrderBook.update,
    OrderBook.empty.
  rewrite !lookup_insert. repeat case_decide; reflexivity.
Defined.

(** ** The statistics of the executor *)

Section Statistics.
Import Executor.

Lemma execute_all_cons cfg clock opportunity rest self :
  execute_all cfg ((clock, opportunity) :: rest) self =
    execute_all cfg rest (execute cfg clock self opportunity).1.1.
Proof. reflexivity. Qed.

Lemma execute_stats cfg clock self opportunity :
  stats (execute cfg clock self opportunity).1.1 =
    update_stats (stats self) (trade_result cfg clock opportunity).1.
Proof. unfold execute. by destruct (trade_result cfg clock opportunity). Qed.

Lemma recorded_cons cfg call rest :
  recorded cfg (call :: rest) =
    recorded cfg rest ++ [(trade_result cfg call.1 call.2).1].
Proof. reflexivity. Qed.

Lemma update_stats_profitable s tr :
  profitable (update_stats s tr) =
    profitable s + Z.of_nat (length (List.filter gainful [tr])).
Proof.
  unfold update_stats. cbn [List.filter]. fold (gainful tr).
  destruct (gainful tr); cbn [profitable length]; lia.
Qed.

Lemma execute_all_profitable cfg calls : forall self,
  profitable (stats (execute_all cfg calls self)) =
    profitable (stats self)
    + Z.of_nat (length (List.filter gainful (recorded cfg calls))).
Proof.
  induction calls as [|[clock opportunity] rest IH]; intros self.
  - cbn. lia.
  - rewrite execute_all_cons, IH, execute_stats, update_stats_profitable.
    rewrite recorded_cons, filter_app, length_app. cbn [fst snd]. lia.
Qed.

Lemma update_stats_best s tr seen :
  best_of (best_trade s) seen ->
  best_of (best_trade (update_stats s tr)) (seen ++ [tr]).
Proof.
  intros [Hall Hone]. unfold update_stats. fold (gainful tr).
  destruct (gainful tr) eqn:Hgain; cbn [best_trade].
  - unfold PyFloat.gt.
    destruct (best_trade s <? tr_profit_usd tr)%float eqn:Hnew; split.
    + intros tr0 [Hold|Hlast]%elem_of_app Hg.
      * apply not_true_false. intros Hlt.
        pose proof (FloatOrder.ltb_trans _ _ _ Hnew Hlt) as Habs.
        by rewrite (Hall tr0 Hold Hg) in Habs.
      * apply list_elem_of_singleton in Hlast as ->.
        apply FloatOrder.ltb_irrefl.
    + right. exists tr. split; [|by split].
      apply elem_of_app. right. by left.
    + intros tr0 [Hold|Hlast]%elem_of_app Hg; [by apply Hall|].
      by apply list_elem_of_singleton in Hlast as ->.
    + destruct Hone as [H0|(tr0 & Hin & Hg & Hb)]; [by left|right].
      exists tr0. split; [|by split]. apply elem_of_app. by left.
  - split.
    + intros tr0 [Hold|Hlast]%elem_of_app Hg; [by apply Hall|].
      apply list_elem_of_singleton in Hlast as ->. congruence.
    + destruct Hone as [H0|(tr0 & Hin & Hg & Hb)]; [by left|right].
      exists tr0. split; [|by split]. apply elem_of_app. by left.
Qed.

Lemma best_of_perm best seen seen' :
  (forall tr, tr ∈ seen <-> tr ∈ seen') -> best_of best seen ->
  best_of best seen'.
Proof.
  intros Hsame [Hall Hone]. split.
  - intros tr Hin. apply Hall. by apply Hsame.
  - destruct Hone as [H0|(tr & Hin & Hg & Hb)]; [by left|right].
    exists tr. split; [by apply Hsame|by split].
Qed.

Lemma execute_all_best cfg calls : forall self seen,
  best_of (best_trade (stats self)) seen ->
  best_of (best_trade (stats (execute_all cfg calls self)))
          (recorded cfg calls ++ seen).
Proof.
  induction calls as [|[clock opportunity] rest IH]; intros self seen Hseen.
  - exact Hseen.
  - rewrite execute_all_cons, recorded_cons. cbn [fst snd].
    eapply best_of_perm;
      [|apply (IH _ (seen ++ [(trade_result cfg clock opportunity).1]))].
    + intros tr. rewrite !elem_of_app. intuition.
    + rewrite execute_stats. by apply update_stats_best.
Qed.

End Statistics.

(** X13: after any calls of [execute] on a fresh executor, [profitable]
    is the number of recorded trades whose [profit_usd] is above zero, over
    all calls and not only the trades still in the history; it lies between
    zero and [total_trades]. *)
Theorem profitable_counts_gains cfg ex calls :
  profitable (Executor.stats (execute_all cfg calls (Executor.init ex)))
    = Z.of_nat (length (List.filter gainful (recorded cfg calls))) /\
  0 <= profitable (Executor.stats (execute_all cfg calls (Executor.init ex)))
    <= total_trades
         (Executor.stats (execute_all cfg calls (Executor.init ex))).
Proof.
  pose proof (execute_all_profitable cfg calls (Executor.init ex)) as Hp.
  destruct (execute_all_history cfg calls (Executor.init ex)) as [_ Ht].
  { simpl. unfold Executor.MAXLEN. lia. }
  cbn [Executor.init Executor.stats profitable total_trades] in Hp, Ht.
  rewrite Hp, Ht. split; [lia|].
  pose proof (filter_length_le gainful (recorded cfg calls)) as Hle.
  unfold recorded in Hle at 2. rewrite length_rev, length_map in Hle. lia.
Qed.

(** X14: after any calls of [execute] on a fresh executor, no recorded
    trade with a [profit_usd] above zero exceeds [best_trade], and
    [best_trade] is either still the initial 0 or the [profit_usd] of one of
    those trades. *)
Theorem best_trade_is_the_best cfg ex calls :
  let best :=
    best_trade (Executor.stats (execute_all cfg calls (Executor.init ex))) in
  (forall tr, tr ∈ recorded cfg calls -> gainful tr = true ->
     (best <? tr_profit_usd tr)%float = false) /\
  (best = 0%float \/
   exists tr,
     tr ∈ recorded cfg calls /\ gainful tr = true /\ best = tr_profit_usd tr).
Proof.
  pose proof (execute_all_best cfg calls (Executor.init ex) []) as H.
  rewrite app_nil_r in H. apply H. split; [|by left].
  intros tr Hin. by apply elem_of_nil in Hin.
Qed.

(** Three calls with profits 0.03, 0.00 and 0.05: two gainful trades, the
    best being 0.05. *)
Example statistics_after_three_calls :
  let call p := (mkExecClock 1000 "2024-01-01T12:00:00",
                 mkOpportunity "one" ["A1"; "U"; "U"] 1.006%float p
                               "12:00:00") in
  Executor.stats
    (execute_all sample_config [call 0.03; call 0; call 0.05]%float
       (Executor.init (mkExchange (fun _ _ _ => None))))
  = mkStats 3 2 0.08%float 0.05%float.
Proof. vm_compute. reflexivity. Qed.

(** ** The loop and the executor together *)

Section LoopAndExecutor.
Import Bot.

Lemma run_cons_state cfg triangles env rest bot :
  (run cfg triangles (env :: rest) bot).1 =
    (run cfg triangles rest (tick cfg triangles env bot).1).1.
Proof.
  cbn [run]. destruct (tick cfg triangles env bot) as [bot1 d].
  cbn [fst]. by destruct (run cfg triangles rest bot1).
Qed.

Lemma tick_total cfg triangles env bot :
  total_trades (Executor.stats (executor (tick cfg triangles env bot).1)) =
    total_trades (Executor.stats (executor bot))
    + Z.of_nat (length (dispatched [(tick cfg triangles env bot).2])).
Proof.
  destruct ((tick cfg triangles env bot).2) as [o|] eqn:Hd.
  - destruct (tick_dispatch _ _ _ _ _ Hd) as (_ & _ & _ & ->).
    cbn [executor]. rewrite execute_total. cbn. lia.
  - rewrite (tick_quiet _ _ _ _ Hd). cbn. lia.
Qed.

Lemma above_zero_step acc result :
  above_zero acc -> above_zero (select_step acc result).
Proof.
  destruct acc as [best bp]. intros [Hpos Hbest]. cbn [fst snd] in *.
  unfold select_step. destruct result as [r|]; [|by split].
  cbn [snd]. unfold PyFloat.gt.
  destruct (bp <? profit_pct r)%float eqn:Hgt; [|by split].
  pose proof (FloatOrder.leb_ltb_trans _ _ _ Hpos Hgt) as Hr.
  split; cbn [fst snd]; [by apply FloatOrder.ltb_leb|].
  by intros o [= <-].
Qed.

Lemma above_zero_fold results : forall acc,
  above_zero acc -> above_zero (fold_left select_step results acc).
Proof.
  induction results as [|result rest IH]; intros acc Hacc; [exact Hacc|].
  cbn [fold_left]. apply IH. by apply above_zero_step.
Qed.

Lemma select_best_above_zero results o best :
  select_best results = (Some o, best) -> (0 <? profit_pct o)%float = true.
Proof.
  intros Hsel.
  assert (above_zero (select_best results)) as [_ H].
  { apply above_zero_fold. split; [reflexivity|discriminate]. }
  apply H. by rewrite Hsel.
Qed.

End LoopAndExecutor.

(** X15: over any passes of the loop, the counter [total_trades] of the
    executor grows by exactly the number of passes that dispatched: every
    dispatch is counted, and nothing else is. *)
Theorem run_counts_dispatches cfg triangles envs bot :
  total_trades
    (Executor.stats (Bot.executor (Bot.run cfg triangles envs bot).1))
  = total_trades (Executor.stats (Bot.executor bot))
    + Z.of_nat (length (dispatched (Bot.run cfg triangles envs bot).2)).
Proof.
  revert bot. induction envs as [|env rest IH]; intros bot; [cbn; lia|].
  rewrite run_cons_state, run_cons, dispatched_cons, IH, tick_total.
  destruct ((Bot.tick cfg triangles env bot).2); cbn [dispatched omap length];
    cbn; lia.
Qed.

(** X16: a pass dispatches only an opportunity whose reported
    [profit_pct] is above zero (the ranking starts from a best profit of 0
    and takes strictly better results only) and not below [MIN_PROFIT]; with
    a threshold of zero or less, results reported at zero or below are still
    never dispatched. *)
Theorem dispatch_needs_positive_profit cfg triangles env bot o :
  (Bot.tick cfg triangles env bot).2 = Some o ->
  (0 <? profit_pct o)%float = true /\
  (MIN_PROFIT cfg <=? profit_pct o)%float = true.
Proof.
  intros Hd. destruct (tick_dispatch _ _ _ _ _ Hd) as (Hsel & Hge & _).
  split; [exact (select_best_above_zero _ _ _ Hsel)|exact Hge].
Qed.

Lemma dispatch_needs_positive_profit_witness :
  (Bot.tick sample_config [RoundedTie.one; RoundedTie.two] RoundedTie.env
     RoundedTie.bot).2 = Some LiveReject.opportunity /\
  (0 <? profit_pct LiveReject.opportunity)%float = true.
Proof.
  assert ((Bot.tick sample_config [RoundedTie.one; RoundedTie.two]
             RoundedTie.env RoundedTie.bot).2 = Some LiveReject.opportunity)
    as Hd by (vm_compute; reflexivity).
  split; [exact Hd|].
  exact (proj1 (dispatch_needs_positive_profit _ _ _ _ _ Hd)).
Defined.

(** ** The dashboard *)

(** X17: after any calls of [execute] on a fresh executor, the page [/]
    shows the 20 most recently recorded trades, newest first (all of them
    while there are fewer), which is the beginning of what [/api/trades]
    returns, and the statistics it shows are those of [/api/stats]. *)
Theorem index_shows_newest_trades cfg ex calls triangles now :
  let executor := execute_all cfg calls (Executor.init ex) in
  ctx_trades (Dashboard.index cfg executor triangles now)
    = take 20 (recorded cfg calls) /\
  ctx_trades (Dashboard.index cfg executor triangles now)
    `prefix_of` Dashboard.api_trades executor /\
  ctx_stats (Dashboard.index cfg executor triangles now)
    = Dashboard.api_stats executor.
Proof.
  cbv zeta. unfold Dashboard.index, Dashboard.api_trades, Dashboard.api_stats.
  cbn [ctx_trades ctx_stats].
  destruct (execute_all_history cfg calls (Executor.init ex)) as [Htr _].
  { simpl. unfold Executor.MAXLEN. lia. }
  cbn [Executor.init Executor.trades] in Htr. rewrite app_nil_r in Htr.
  split; [|split; [apply prefix_take|reflexivity]].
  rewrite Htr, take_take. reflexivity.
Qed.

(** ** Unfilled legs *)

Section Unfilled.
Import PyFloat Simulator.

Lemma walk_bids_unfilled levels : forall remaining received out rest,
  walk_bids levels remaining received = (out, rest) ->
  gt rest EPSILON = true ->
  (out, rest) = bids_consumed levels remaining received.
Proof.
  induction levels as [|[price volume] levels IH];
    intros remaining received out rest Hwalk Hgt.
  - cbn in Hwalk. by injection Hwalk as <- <-.
  - cbn [walk_bids] in Hwalk. destruct (ge volume remaining).
    + injection Hwalk as <- <-. vm_compute in Hgt. discriminate.
    + unfold bids_consumed. cbn [fold_left fst snd]. by apply IH.
Qed.

Lemma walk_asks_unfilled levels : forall remaining acquired out rest,
  walk_asks levels remaining acquired = Next (out, rest) ->
  gt rest EPSILON = true ->
  (out, rest) = asks_consumed levels remaining acquired.
Proof.
  induction levels as [|[price volume] levels IH];
    intros remaining acquired out rest Hwalk Hgt.
  - cbn in Hwalk. by injection Hwalk as <- <-.
  - cbn [walk_asks] in Hwalk. destruct (price * volume <=? remaining)%float.
    + unfold asks_consumed. cbn [fold_left fst snd]. by apply IH.
    + destruct (truediv remaining price) as [q| |e]; try discriminate.
      cbn in Hwalk. injection Hwalk as <- <-.
      vm_compute in Hgt. discriminate.
Qed.

End Unfilled.

(** X18: a leg is given up as unfilled only after its walk has gone
    through every level of the book: when the walk of a leg ends with more
    than 0.00001 unfilled, no level ended it early, and its output and
    remainder are those of consuming the whole side, level after level. *)
Theorem unfilled_means_book_consumed ob direction current out rest :
  Simulator.walk ob direction current = PyFloat.Next (out, rest) ->
  PyFloat.gt rest Simulator.EPSILON = true ->
  (out, rest) =
    match direction with
    | sell => bids_consumed (bids ob) current 0%float
    | buy => asks_consumed (asks ob) current 0%float
    end.
Proof.
  unfold Simulator.walk. destruct direction; intros Hwalk Hgt.
  - by apply walk_asks_unfilled.
  - injection Hwalk as Hwalk. by apply walk_bids_unfilled.
Qed.

Lemma unfilled_means_book_consumed_witness :
  (1.05, 0.0019940029999999999)%float =
    bids_consumed [(1050, 0.001)%float] 0.0029940029999999999%float 0%float.
Proof.
  apply (unfilled_means_book_consumed
           (mkSnapshot [(1050, 0.001)%float] [] 0%float) sell
           0.0029940029999999999%float 1.05%float
           0.0019940029999999999%float).
  - vm_compute. reflexivity.
  - vm_compute. reflexivity.
Defined.

(** ** What the updater stores *)

Section Stored.
Import Poller.

Lemma poll_from_stores symbols env : forall i j books symbol b a,
  NoDup symbols ->
  symbols !! j = Some symbol ->
  fetched (env (i + j)%nat) = FetchedBook b a ->
  poll_from i symbols env books !! symbol =
    Some (mkSnapshot (take DEPTH b) (take DEPTH a) (poll_time (env (i + j)%nat))).
Proof.
  induction symbols as [|s rest IH]; intros i j books symbol b a Hnd Hj Hf;
    [discriminate|].
  inversion Hnd as [|? ? Hfresh Hnd']; subst. cbn [poll_from].
  destruct j as [|j].
  - injection Hj as ->. rewrite Nat.add_0_r in *.
    rewrite poll_from_other by exact Hfresh.
    unfold poll_symbol, OrderBook.update. rewrite Hf.
    apply lookup_insert_eq.
  - cbn in Hj. replace (i + S j)%nat with (S i + j)%nat in * by lia.
    by apply IH.
Qed.

End Stored.

(** X19: after a round of the updater, a listed symbol whose fetch
    succeeded holds exactly the first ten bid levels and the first ten ask
    levels that the fetch returned, stamped with the time of its update (the
    symbols of the list being distinct). *)
Theorem updater_stores_first_ten_levels symbols env books j symbol b a :
  NoDup symbols ->
  symbols !! j = Some symbol ->
  fetched (env j) = FetchedBook b a ->
  OrderBook.get symbol (Poller.poll_from 0 symbols env books) =
    Some (mkSnapshot (take 10 b) (take 10 a) (poll_time (env j))).
Proof.
  intros Hnd Hj Hf. unfold OrderBook.get.
  by apply (poll_from_stores symbols env 0 j).
Qed.

Lemma updater_stores_first_ten_levels_witness :
  OrderBook.get "BTC/USDT"
    (Poller.poll_from 0 ["ETH/USDT"; "BTC/USDT"] deep_fetch OrderBook.empty) =
    Some (mkSnapshot (replicate 10 (20000, 1)%float)
                     (replicate 10 (20001, 1)%float) 1000%float).
Proof.
  apply (updater_stores_first_ten_levels ["ETH/USDT"; "BTC/USDT"] deep_fetch
           OrderBook.empty 1 "BTC/USDT"
           (replicate 12 (20000, 1)%float) (replicate 12 (20001, 1)%float)).
  - apply (bool_decide_unpack _). vm_compute. exact I.
  - reflexivity.
  - reflexivity.
Defined.

(** ** The store, one caller at a time *)

(** X20: [get] returns for a symbol exactly the bids, asks and time of the
    last [update] of that symbol; an [update] of one symbol leaves the
    entries of all others as they were; and a second [update] of a symbol
    replaces the first without trace. *)
Theorem update_then_get now symbol b a (books : gmap string Snapshot) :
  OrderBook.get symbol (OrderBook.update now symbol b a books)
    = Some (mkSnapshot b a now) /\
  (forall other,
     other ≠ symbol ->
     OrderBook.get other (OrderBook.update now symbol b a books)
       = OrderBook.get other books) /\
  (forall now' b' a',
     OrderBook.update now' symbol b' a' (OrderBook.update now symbol b a books)
       = OrderBook.update now' symbol b' a' books).
Proof.
  unfold OrderBook.get, OrderBook.update. split; [|split].
  - apply lookup_insert_eq.
  - intros other Hne. by apply lookup_insert_ne.
  - intros now' b' a'. apply insert_insert_eq.
Qed.

(** ** A negative cap *)

(** X21: a negative [MAX_TRIANGLES] neither empties the list nor lifts
    the cap: [find_triangles] then drops that many triangles from the end of
    the enumeration (all of them when there are no more than that), the
    enumeration being what a cap above its length returns. *)
Theorem find_triangles_negative_cap cfg cfg' (markets : list (string * Market)) :
  MAX_TRIANGLES cfg < 0 ->
  Z.of_nat (length (Scanner.find_triangles cfg' markets)) < MAX_TRIANGLES cfg' ->
  Scanner.find_triangles cfg markets =
    take (length (Scanner.find_triangles cfg' markets)
          - Z.to_nat (- MAX_TRIANGLES cfg))
         (Scanner.find_triangles cfg' markets).
Proof.
  unfold Scanner.find_triangles, slice_to.
  destruct (Scanner.build_adjacency markets !! "USDT") as [first|];
    [|intros; by rewrite take_nil].
  intros Hneg Hfull.
  rewrite (proj2 (Z.leb_gt 0 (MAX_TRIANGLES cfg)) Hneg).
  destruct (0 <=? MAX_TRIANGLES cfg') eqn:Hcap'.
  - apply Z.leb_le in Hcap'. rewrite length_take in Hfull.
    rewrite (take_ge (Scanner.enumerate _ _ _) (Z.to_nat (MAX_TRIANGLES cfg')))
      by lia.
    f_equal. lia.
  - apply Z.leb_gt in Hcap'. lia.
Qed.

Lemma find_triangles_negative_cap_witness :
  Scanner.find_triangles (capped (-1)) looped_markets =
    take (length (Scanner.find_triangles (capped 500) looped_markets)
          - Z.to_nat (- MAX_TRIANGLES (capped (-1))))
         (Scanner.find_triangles (capped 500) looped_markets).
Proof.
  apply (find_triangles_negative_cap (capped (-1)) (capped 500) looped_markets).
  - simpl. lia.
  - vm_compute. reflexivity.
Defined.

(** With the cap at -1 three of the four triangles are left. *)
Example find_triangles_minus_one :
  length (Scanner.find_triangles (capped (-1)) looped_markets) = 3%nat.
Proof. vm_compute. reflexivity. Qed.
